(** * data_processor.py: loading, filtering and aggregating air-quality tables

    A shallow embedding of the six functions of [data_processor.py].  A pandas
    DataFrame is a list of records, one per row and in row order; the pandas
    operations the module calls (boolean-mask indexing, [isin], [dropna],
    [groupby(...).mean()], [merge]) are written out in [Module Pandas] below.

    Conventions of the embedding:
    - a timestamp is its number of nanoseconds since the epoch, an integer;
      the range of [pd.Timestamp] is checked where the module builds one by
      addition; [NaT] is the missing timestamp;
    - a float64 cell is a binary64 float, NaN being the missing value; the
      arithmetic is that of the kernel's primitive floats;
    - a text cell is a string or missing ([None]). *)

From Stdlib Require Import ZArith QArith List String Ascii Bool Lia Sorted.
From Stdlib Require Import Permutation.
From Stdlib Require Floats Uint63.
Import ListNotations.
Local Open Scope Z_scope.
Local Open Scope list_scope.

(* ------------------------------------------------------------------ *)
(** ** The pandas operations used by the module *)

Module Pandas.

(** Exceptions raised by the calls the module makes. *)
Inductive Exn : Type :=
| ParserError (text : string)
| OutOfBoundsDatetime
| TypeError.

Inductive Result (A : Type) : Type :=
| Ok (a : A)
| Raise (e : Exn).
Arguments Ok {A} a.
Arguments Raise {A} e.

Definition bind {A B : Type} (m : Result A) (k : A -> Result B) : Result B :=
  match m with
  | Ok a => k a
  | Raise e => Raise e
  end.

Fixpoint mapM {A B : Type} (f : A -> Result B) (l : list A) : Result (list B) :=
  match l with
  | [] => Ok []
  | a :: tl =>
      bind (f a) (fun b => bind (mapM f tl) (fun bs => Ok (b :: bs)))
  end.

(** [datetime64[ns]] values. *)
Inductive Datetime : Type :=
| NaT
| Stamp (ns : Z).

Definition ns_per_day : Z := 86400 * 1000000000.

(** [pd.Timedelta(days=n)], in nanoseconds. *)
Definition Timedelta_days (n : Z) : Z := n * ns_per_day.

(** The instant [t + delta]; [NaT] absorbs.  Whether the instant can be
    held by a timestamp is [timestamp_add]'s business. *)
Definition dt_add (t : Datetime) (delta : Z) : Datetime :=
  match t with
  | NaT => NaT
  | Stamp ns => Stamp (ns + delta)
  end.

(** A [pd.Timestamp] holds its nanoseconds in an int64 whose least value
    stands for [NaT]: [pd.Timestamp.min] and [pd.Timestamp.max]. *)
Definition timestamp_max : Z := 9223372036854775807.
Definition timestamp_min : Z := - 9223372036854775807.

Definition in_bounds (ns : Z) : bool :=
  (timestamp_min <=? ns) && (ns <=? timestamp_max).

(** [pd.to_datetime(t)] on a datetime: the same instant as a nanosecond
    timestamp, [OutOfBoundsDatetime] when it cannot hold it. *)
Definition as_timestamp (t : Datetime) : Result Datetime :=
  match t with
  | NaT => Ok NaT
  | Stamp ns => if in_bounds ns then Ok t else Raise OutOfBoundsDatetime
  end.

(** [pd.to_datetime(t) + pd.Timedelta(...)]: the sum raises
    [OutOfBoundsDatetime] when it leaves the range of timestamps. *)
Definition timestamp_add (t : Datetime) (delta : Z) : Result Datetime :=
  bind (as_timestamp t) (fun t => as_timestamp (dt_add t delta)).

(** [a >= b] and [a < b] on timestamps: any comparison with [NaT] is
    [False]. *)
Definition dt_ge (a b : Datetime) : bool :=
  match a, b with
  | Stamp x, Stamp y => y <=? x
  | _, _ => false
  end.

Definition dt_lt (a b : Datetime) : bool :=
  match a, b with
  | Stamp x, Stamp y => x <? y
  | _, _ => false
  end.

(** A text cell: a string, or missing (NaN in an object column). *)
Definition Label : Type := option string.

(** A float64 cell: a number, or NaN. *)
Definition Float64 : Type := PrimFloat.float.

Definition isnan (v : Float64) : bool := PrimFloat.is_nan v.

(** The float64 of a small non-negative integer. *)
Definition float_of_Z (n : Z) : Float64 :=
  PrimFloat.of_uint63 (Uint63.of_Z n).

(** A cell of a column that [read_csv] could not read as numbers
    throughout: the column has dtype object and keeps the text of the
    cells that are not numbers. *)
Inductive Field : Type :=
| Missing
| Number (q : Q)
| Text (s : string).

Definition notna (c : Field) : bool :=
  match c with
  | Missing => false
  | _ => true
  end.

(** [series >= x], [series < x], [series == x], [series.isin(values)]:
    element-wise, giving a boolean mask. *)
Definition series_ge (col : list Datetime) (x : Datetime) : list bool :=
  map (fun d => dt_ge d x) col.

Definition series_lt (col : list Datetime) (x : Datetime) : list bool :=
  map (fun d => dt_lt d x) col.

Definition label_eqb (c : Label) (x : string) : bool :=
  match c with
  | Some s => String.eqb s x
  | None => false
  end.

Definition series_eq (col : list Label) (x : string) : list bool :=
  map (fun c => label_eqb c x) col.

Definition label_in (c : Label) (values : list string) : bool :=
  match c with
  | Some s => existsb (String.eqb s) values
  | None => false
  end.

Definition isin (col : list Label) (values : list string) : list bool :=
  map (fun c => label_in c values) col.

(** [series >= x] and [series < x] for a column of tz-naive dates and a
    scalar that may carry a time zone: comparing with a tz-aware timestamp
    raises [TypeError], whatever the length of the column; [NaT] has no time
    zone. *)
Definition compare_dates (op : list Datetime -> Datetime -> list bool)
    (col : list Datetime) (x : Datetime) (aware : bool) : Result (list bool) :=
  match x with
  | Stamp _ => if aware then Raise TypeError else Ok (op col x)
  | NaT => Ok (op col x)
  end.

(** [m1 & m2] on masks. *)
Definition mask_and (m1 m2 : list bool) : list bool :=
  map (fun p => fst p && snd p) (combine m1 m2).

(** [df[mask]]: the rows at which the mask is [True], in row order. *)
Definition getitem_mask {R : Type} (df : list R) (mask : list bool) : list R :=
  map fst (filter snd (combine df mask)).

End Pandas.
Export Pandas.

Notation "x <- m ;; k" := (bind m (fun x => k))
  (at level 61, m at next level, right associativity).

(* ------------------------------------------------------------------ *)
(** ** The measurement table *)

(** One row of the table.  [V] is the type of the cells of the numeric
    columns: [Float64] when the column has dtype float64, [Field] when it has
    dtype object. *)
Record Row (V : Type) : Type := mkRow {
  date : Datetime;
  location : Label;
  parameter : Label;
  value : V;
  lat : V;
  lon : V
}.
Arguments mkRow {V} date location parameter value lat lon.
Arguments date {V} r.
Arguments location {V} r.
Arguments parameter {V} r.
Arguments value {V} r.
Arguments lat {V} r.
Arguments lon {V} r.

Definition DataFrame (V : Type) : Type := list (Row V).

(** [df['c']] *)
Definition column {V A : Type} (c : Row V -> A) (df : DataFrame V) : list A :=
  map c df.

(** One row of the frame [read_csv] gives, before the date column is
    converted: the date is still text. *)
Record CsvRow : Type := mkCsvRow {
  csv_date : option string;
  csv_location : Label;
  csv_parameter : Label;
  csv_value : Field;
  csv_lat : Field;
  csv_lon : Field
}.

(** What the callers pass as a date bound. *)
Inductive DateLike : Type :=
| PyDatetime (ns : Z)     (* a tz-naive datetime.datetime or pd.Timestamp *)
| PyDate (days : Z)       (* a datetime.date, as days since the epoch *)
| PyStr (s : string)      (* text without a UTC offset *)
| PyDatetimeTz (ns : Z)   (* a tz-aware datetime.datetime or pd.Timestamp *)
| PyStrTz (s : string).   (* text with a UTC offset *)

(** Whether the bound carries a time zone. *)
Definition tz_aware (x : DateLike) : bool :=
  match x with
  | PyDatetimeTz _ | PyStrTz _ => true
  | _ => false
  end.

(** What the callers pass as [parameters]. *)
Inductive ParamSel : Type :=
| OneParam (p : string)
| ManyParams (ps : list string).

Section DataProcessor.

(** pandas' parser of date text: [None] when it raises, [Some NaT] for the
    texts it reads as missing. *)
Variable parse_datetime : string -> option Datetime.

(** [pd.to_datetime(x)] on a scalar. *)
Definition to_datetime (x : DateLike) : Result Datetime :=
  match x with
  | PyDatetime ns => Ok (Stamp ns)
  | PyDate days => Ok (Stamp (days * ns_per_day))
  | PyStr s =>
      match parse_datetime s with
      | Some t => Ok t
      | None => Raise (ParserError s)
      end
  | PyDatetimeTz ns => Ok (Stamp ns)
  | PyStrTz s =>
      match parse_datetime s with
      | Some t => Ok t
      | None => Raise (ParserError s)
      end
  end.

(** [pd.to_datetime(df['date'])] on one cell of the column. *)
Definition to_datetime_cell (c : option string) : Result Datetime :=
  match c with
  | None => Ok NaT
  | Some s => to_datetime (PyStr s)
  end.

Definition convert_date (r : CsvRow) : Result (Row Field) :=
  d <- to_datetime_cell (csv_date r) ;;
  Ok (mkRow d (csv_location r) (csv_parameter r)
            (csv_value r) (csv_lat r) (csv_lon r)).

(** [df.dropna(subset=['value', 'lat', 'lon'])] *)
Definition complete (r : Row Field) : bool :=
  notna (value r) && notna (lat r) && notna (lon r).

Definition dropna_value_lat_lon (df : DataFrame Field) : DataFrame Field :=
  filter complete df.

(** [load_and_process_data], from the frame that [pd.read_csv] returns. *)
Definition load_and_process_data (csv : list CsvRow) : Result (DataFrame Field) :=
  df <- mapM convert_date csv ;;
  let df := dropna_value_lat_lon df in
  Ok df.

(** [isinstance(x, datetime)]: when it holds the bound is kept as it is. *)
Definition ensure_datetime (x : DateLike) : Result Datetime :=
  match x with
  | PyDatetime ns => Ok (Stamp ns)
  | PyDatetimeTz ns => Ok (Stamp ns)
  | _ => to_datetime x
  end.

(** The bounds are converted first (a text that does not parse raises), one
    day is added to the end bound (the sum may leave the range of
    timestamps), and then the date column is compared with the two bounds
    (a tz-aware bound raises). *)
Definition filter_data_by_date_range {V : Type}
    (df : DataFrame V) (start_date end_date : DateLike) : Result (DataFrame V) :=
  start <- ensure_datetime start_date ;;
  end_ <- ensure_datetime end_date ;;
  end_ <- timestamp_add end_ (Timedelta_days 1) ;;
  ge <- compare_dates series_ge (column date df) start (tz_aware start_date) ;;
  lt <- compare_dates series_lt (column date df) end_ (tz_aware end_date) ;;
  Ok (getitem_mask df (mask_and ge lt)).

(** The part of the date-range filter that does not read the table: the
    two converted bounds, or the error raised. *)
Definition date_bounds (start_date end_date : DateLike)
    : Result (Datetime * Datetime) :=
  start <- ensure_datetime start_date ;;
  end_ <- ensure_datetime end_date ;;
  end_plus <- timestamp_add end_ (Timedelta_days 1) ;;
  _ <- compare_dates series_ge [] start (tz_aware start_date) ;;
  _ <- compare_dates series_lt [] end_plus (tz_aware end_date) ;;
  Ok (start, end_).

End DataProcessor.

(** [not locations]: [None] and the empty list are falsy. *)
Definition falsy (locations : option (list string)) : bool :=
  match locations with
  | None => true
  | Some [] => true
  | Some (_ :: _) => false
  end.

Definition filter_data_by_location {V : Type}
    (df : DataFrame V) (locations : option (list string)) : DataFrame V :=
  if falsy locations then df
  else
    match locations with
    | Some ls => getitem_mask df (isin (column location df) ls)
    | None => df
    end.

Definition filter_data_by_parameter {V : Type}
    (df : DataFrame V) (parameters : ParamSel) : DataFrame V :=
  let parameters :=
    match parameters with
    | OneParam p => [p]
    | ManyParams ps => ps
    end in
  getitem_mask df (isin (column parameter df) parameters).


(* ------------------------------------------------------------------ *)
(** ** Grouping and joining *)

(** The key of a row in [groupby(['date', 'location'])].  pandas leaves a row
    out of every group when one of its key cells is missing. *)
Definition GroupKey : Type := (Z * string)%type.

Definition group_key {V : Type} (r : Row V) : option GroupKey :=
  match date r, location r with
  | Stamp d, Some l => Some (d, l)
  | _, _ => None
  end.

(** Keys are ordered by date, then by location (strings by code point). *)
Definition key_compare (k1 k2 : GroupKey) : comparison :=
  match fst k1 ?= fst k2 with
  | Eq => String.compare (snd k1) (snd k2)
  | c => c
  end.

Definition key_eqb (k1 k2 : GroupKey) : bool :=
  (fst k1 =? fst k2) && String.eqb (snd k1) (snd k2).

Definition in_group {V : Type} (k : GroupKey) (r : Row V) : bool :=
  match group_key r with
  | Some k' => key_eqb k' k
  | None => false
  end.

(** The group keys of a frame: each key once, in increasing order
    ([groupby] sorts its keys). *)
Fixpoint insert_key (k : GroupKey) (ks : list GroupKey) : list GroupKey :=
  match ks with
  | [] => [k]
  | k' :: tl =>
      match key_compare k k' with
      | Lt => k :: ks
      | Eq => ks
      | Gt => k' :: insert_key k tl
      end
  end.

Definition group_keys {V : Type} (df : DataFrame V) : list GroupKey :=
  fold_right
    (fun r acc => match group_key r with
                  | Some k => insert_key k acc
                  | None => acc
                  end)
    [] df.

(** The cells of a float64 column that are not NaN. *)
Definition present (vs : list Float64) : list Float64 :=
  filter (fun v => negb (isnan v)) vs.

(** One step of the compensated sum that [mean()] of a group keeps: the
    running sum and the compensation for the low-order bits lost so far.  A
    compensation that is NaN (an infinite cell) is reset to zero. *)
Definition kahan_step (acc : Float64 * Float64) (val : Float64)
    : Float64 * Float64 :=
  let sumx := fst acc in
  let compensation := snd acc in
  let y := PrimFloat.sub val compensation in
  let t := PrimFloat.add sumx y in
  let c := PrimFloat.sub (PrimFloat.sub t sumx) y in
  (t, if PrimFloat.is_nan c then PrimFloat.zero else c).

Definition kahan_sum (qs : list Float64) : Float64 :=
  fst (fold_left kahan_step qs (PrimFloat.zero, PrimFloat.zero)).

(** [mean()] of a group: NaN cells are skipped, the others are summed in row
    order and the sum is divided by their number, all in float64; a group
    without a number has mean NaN. *)
Definition nanmean (vs : list Float64) : Float64 :=
  match present vs with
  | [] => PrimFloat.nan
  | qs => PrimFloat.div (kahan_sum qs)
                        (float_of_Z (Z.of_nat (List.length qs)))
  end.

(** A row of the frame [aggregate_data_for_time_series] returns: columns
    date, location, value. *)
Record SeriesRow : Type := mkSeriesRow {
  ts_date : Datetime;
  ts_location : Label;
  ts_value : Float64
}.

(** [df.groupby(['date', 'location'])['value'].mean().reset_index()] *)
Definition groupby_date_location_mean (df : DataFrame Float64) : list SeriesRow :=
  map (fun k =>
         mkSeriesRow (Stamp (fst k)) (Some (snd k))
                     (nanmean (column value (filter (in_group k) df))))
      (group_keys df).

Definition aggregate_data_for_time_series
    (df : DataFrame Float64) (param : string) (freq : string) : list SeriesRow :=
  let param_df := getitem_mask df (series_eq (column parameter df) param) in
  let grouped := groupby_date_location_mean param_df in
  grouped.

(** A frame with the three columns date, location and one column of
    values, whose label is kept beside the rows. *)
Record ValueFrame : Type := mkValueFrame {
  value_label : string;
  value_rows : list (Datetime * Label * Float64)
}.

(** [df.rename(columns={'value': p})[['date', 'location', p]]].  The label
    [p] is taken to differ from the labels date, location, parameter, lat and
    lon of the table; with one of these the renamed frame would carry a
    label twice, which this embedding does not cover. *)
Definition rename_and_select (df : DataFrame Float64) (p : string) : ValueFrame :=
  mkValueFrame p (map (fun r => (date r, location r, value r)) df).

(** A row of the merged frame: the two key cells, the value from the left
    frame and the value from the right one. *)
Record PairRow : Type := mkPairRow {
  pr_date : Datetime;
  pr_location : Label;
  pr_left : Float64;
  pr_right : Float64
}.

Record PairFrame : Type := mkPairFrame {
  columns : list string;
  records : list PairRow
}.

Definition datetime_eqb (a b : Datetime) : bool :=
  match a, b with
  | NaT, NaT => true
  | Stamp x, Stamp y => x =? y
  | _, _ => false
  end.

Definition label_cell_eqb (a b : Label) : bool :=
  match a, b with
  | None, None => true
  | Some x, Some y => String.eqb x y
  | _, _ => false
  end.

(** Equality of join keys; in [merge] a missing key cell matches a missing
    key cell. *)
Definition join_key_eqb (a b : Datetime * Label * Float64) : bool :=
  datetime_eqb (fst (fst a)) (fst (fst b)) &&
  label_cell_eqb (snd (fst a)) (snd (fst b)).

(** The labels of the value columns after a merge: a label the two frames
    share outside the join keys gets the suffixes [_x] and [_y]. *)
Definition merged_value_labels (l r : string) : list string :=
  if String.eqb l r then [(l ++ "_x")%string; (r ++ "_y")%string] else [l; r].

(** [pd.merge(left, right, on=['date', 'location'], how='inner')]: one row
    for every pair of a left row and a right row with equal keys, left rows
    in order and, for each, its right rows in order. *)
Definition merge_inner (left right : ValueFrame) : PairFrame :=
  mkPairFrame
    ("date"%string :: "location"%string ::
       merged_value_labels (value_label left) (value_label right))
    (flat_map
       (fun a =>
          map (fun b => mkPairRow (fst (fst a)) (snd (fst a)) (snd a) (snd b))
              (filter (join_key_eqb a) (value_rows right)))
       (value_rows left)).

Definition prepare_correlation_data
    (df : DataFrame Float64) (param1 param2 : string) : PairFrame :=
  let df1 := getitem_mask df (series_eq (column parameter df) param1) in
  let df1 := rename_and_select df1 param1 in
  let df2 := getitem_mask df (series_eq (column parameter df) param2) in
  let df2 := rename_and_select df2 param2 in
  let merged := merge_inner df1 df2 in
  merged.


(* ------------------------------------------------------------------ *)
(** ** The comparison of locations *)

(** The keys of [groupby('location')]: each location once, in increasing
    order; a row without location is in no group. *)
Fixpoint insert_label (l : string) (ls : list string) : list string :=
  match ls with
  | [] => [l]
  | l' :: tl =>
      match String.compare l l' with
      | Lt => l :: ls
      | Eq => ls
      | Gt => l' :: insert_label l tl
      end
  end.

Definition location_keys {V : Type} (df : DataFrame V) : list string :=
  fold_right
    (fun r acc => match location r with
                  | Some l => insert_label l acc
                  | None => acc
                  end)
    [] df.

(** [min()] and [max()] of a group: NaN cells are skipped; the scan starts
    from plus (minus) infinity and keeps a cell when it is smaller (greater)
    than what it holds; a group without a number gives NaN. *)
Definition nanmin (vs : list Float64) : Float64 :=
  match present vs with
  | [] => PrimFloat.nan
  | qs => fold_left (fun m v => if PrimFloat.ltb v m then v else m)
                    qs PrimFloat.infinity
  end.

Definition nanmax (vs : list Float64) : Float64 :=
  match present vs with
  | [] => PrimFloat.nan
  | qs => fold_left (fun m v => if PrimFloat.ltb m v then v else m)
                    qs PrimFloat.neg_infinity
  end.

(** A row of the frame [aggregate_data_for_comparison] returns: columns
    location, mean, min, max. *)
Record ComparisonRow : Type := mkComparisonRow {
  cmp_location : Label;
  cmp_mean : Float64;
  cmp_min : Float64;
  cmp_max : Float64
}.

(** [df.groupby('location').agg({'value': ['mean', 'min', 'max']})
       .reset_index()], with the columns renamed. *)
Definition groupby_location_agg (df : DataFrame Float64) : list ComparisonRow :=
  map (fun l =>
         let vs := column value (filter (fun r => label_eqb (location r) l) df) in
         mkComparisonRow (Some l) (nanmean vs) (nanmin vs) (nanmax vs))
      (location_keys df).

Definition aggregate_data_for_comparison
    (df : DataFrame Float64) (param : string) : list ComparisonRow :=
  let param_df := getitem_mask df (series_eq (column parameter df) param) in
  let grouped := groupby_location_agg param_df in
  grouped.

(** The numbers measured for [p] at the location [l]. *)
Definition values_at {V : Type} (p l : string) (df : DataFrame V) : list V :=
  map value
      (filter (fun r => label_eqb (parameter r) p && label_eqb (location r) l) df).

Definition label_lt (a b : string) : Prop := String.compare a b = Lt.

(** The row of the merged frame with its two value cells exchanged. *)
Definition swap_values (o : PairRow) : PairRow :=
  mkPairRow (pr_date o) (pr_location o) (pr_right o) (pr_left o).

(* ------------------------------------------------------------------ *)
(** ** The row tests of the three filters *)

(** The test the date-range filter applies to a row, for converted bounds. *)
Definition in_date_range {V : Type} (start_date end_date : Datetime)
    (r : Row V) : bool :=
  dt_ge (date r) start_date &&
  dt_lt (date r) (dt_add end_date (Timedelta_days 1)).

(** The test the location filter applies to a row. *)
Definition keeps_location {V : Type} (locations : option (list string))
    (r : Row V) : bool :=
  match locations with
  | Some (l :: ls) => label_in (location r) (l :: ls)
  | _ => true
  end.

(** The test the parameter filter applies to a row. *)
Definition keeps_parameter {V : Type} (parameters : ParamSel) (r : Row V) : bool :=
  match parameters with
  | OneParam p => label_in (parameter r) [p]
  | ManyParams ps => label_in (parameter r) ps
  end.

(* ------------------------------------------------------------------ *)
(** ** Orders and tests on the aggregated rows *)

(** [a] comes before [b]: an earlier date, or the same date and a smaller
    location. *)
Definition series_before (a b : SeriesRow) : Prop :=
  match ts_date a, ts_location a, ts_date b, ts_location b with
  | Stamp d1, Some l1, Stamp d2, Some l2 =>
      d1 < d2 \/ (d1 = d2 /\ String.compare l1 l2 = Lt)
  | _, _, _, _ => False
  end.

Definition comparison_before (a b : ComparisonRow) : Prop :=
  match cmp_location a, cmp_location b with
  | Some x, Some y => String.compare x y = Lt
  | _, _ => False
  end.

(** The location test of [filter_data_by_location], on an aggregated row. *)
Definition series_at_locations (locations : option (list string))
    (o : SeriesRow) : bool :=
  match locations with
  | Some (l :: ls) => label_in (ts_location o) (l :: ls)
  | _ => true
  end.

(** The date test of [filter_data_by_date_range], on an aggregated row. *)
Definition series_in_date_range (start_date end_date : Datetime)
    (o : SeriesRow) : bool :=
  dt_ge (ts_date o) start_date &&
  dt_lt (ts_date o) (dt_add end_date (Timedelta_days 1)).

(** The location test of [filter_data_by_location], on a merged row. *)
Definition pair_at_locations (locations : option (list string))
    (o : PairRow) : bool :=
  match locations with
  | Some (l :: ls) => label_in (pr_location o) (l :: ls)
  | _ => true
  end.

(** What identifies a measurement: parameter, date and location. *)
Definition measurement_id {V : Type} (r : Row V) : Label * Datetime * Label :=
  (parameter r, date r, location r).

(* ------------------------------------------------------------------ *)
(** ** Predicates used in the statements *)

(** A row whose date is a timestamp [d] with [lo <= d < hi]. *)
Definition dated_within {V : Type} (lo hi : Z) (r : Row V) : bool :=
  match date r with
  | Stamp d => (lo <=? d) && (d <? hi)
  | NaT => false
  end.

(** A timestamp at midnight: a whole number of days. *)
Definition at_midnight (ns : Z) : Prop := ns mod ns_per_day = 0.

(** A row of the csv frame with a missing cell among value, lat, lon. *)
Definition csv_missing (r : CsvRow) : bool :=
  negb (notna (csv_value r) && notna (csv_lat r) && notna (csv_lon r)).

(** A cell that is missing, or is text rather than a number. *)
Definition missing_or_unparseable (c : Field) : bool :=
  match c with
  | Number _ => false
  | _ => true
  end.

Definition csv_missing_or_unparseable (r : CsvRow) : bool :=
  missing_or_unparseable (csv_value r) ||
  missing_or_unparseable (csv_lat r) ||
  missing_or_unparseable (csv_lon r).

Definition count {A : Type} (p : A -> bool) (l : list A) : nat :=
  List.length (filter p l).

(** A row with the (date, location) key [k]; missing cells are equal to
    missing cells. *)
Definition has_key {V : Type} (k : Datetime * Label) (r : Row V) : bool :=
  datetime_eqb (fst k) (date r) && label_cell_eqb (snd k) (location r).


(** The rows that measure [p] at the key [k], in row order. *)
Definition rows_of {V : Type} (p : string) (k : Datetime * Label)
    (df : DataFrame V) : DataFrame V :=
  filter (fun r => label_eqb (parameter r) p && has_key k r) df.

Definition series_key (o : SeriesRow) : Datetime * Label :=
  (ts_date o, ts_location o).

Definition pair_key (o : PairRow) : Datetime * Label :=
  (pr_date o, pr_location o).

Definition row_key {V : Type} (r : Row V) : Datetime * Label :=
  (date r, location r).

(** The rows a join of [p1] with [p2] has for the row [r1] of [p1]: one for
    every row of [p2] with the key of [r1], in row order. *)
Definition joined_with {V : Type} (p2 : string) (df : DataFrame V)
    (pair : Row V -> Row V -> PairRow) (r1 : Row V) : list PairRow :=
  map (pair r1) (rows_of p2 (date r1, location r1) df).

(** A row that measures [p] at the timestamp [d] and the location [l]. *)
Definition measures {V : Type} (p : string) (d : Z) (l : string) (r : Row V) : bool :=
  label_eqb (parameter r) p &&
  datetime_eqb (date r) (Stamp d) &&
  label_cell_eqb (location r) (Some l).

Definition key_lt (a b : GroupKey) : Prop := key_compare a b = Lt.

(** The value the aggregation reports for a group of cells: NaN when no
    cell holds a number, else the float64 quotient of the compensated sum of
    the cells that hold one by their number. *)
Definition is_mean_of (m : Float64) (vs : list Float64) : Prop :=
  (present vs = [] -> m = PrimFloat.nan) /\
  (present vs <> [] ->
   m = PrimFloat.div (kahan_sum (present vs))
                     (float_of_Z (Z.of_nat (List.length (present vs))))).

(** A csv row and the table row it becomes under a parser of dates. *)
Definition converted_by (parse_datetime : string -> option Datetime)
    (c : CsvRow) (r : Row Field) : Prop :=
  to_datetime_cell parse_datetime (csv_date c) = Ok (date r) /\
  location r = csv_location c /\ parameter r = csv_parameter c /\
  value r = csv_value c /\ lat r = csv_lat c /\ lon r = csv_lon c.

(* ------------------------------------------------------------------ *)
(** ** Fixtures *)

Definition midnight (days : Z) : Z := days * ns_per_day.

(** 2024-01-01 is day 19723 of the epoch. *)
Definition jan (d : Z) : Z := midnight (19722 + d).

Definition hours (h : Z) : Z := h * 3600 * 1000000000.

(** A parser that knows the first days of January 2024 in ISO form. *)
Definition iso_jan_2024 (s : string) : option Datetime :=
  if String.eqb s "2024-01-01" then Some (Stamp (jan 1))
  else if String.eqb s "2024-01-02" then Some (Stamp (jan 2))
  else if String.eqb s "2024-01-03" then Some (Stamp (jan 3))
  else if String.eqb s "NaT" then Some NaT
  else None.

Definition pm25_row (d : Z) (l : string) (v : Z) : Row Float64 :=
  mkRow (Stamp d) (Some l) (Some "PM2.5"%string)
        (float_of_Z v) (float_of_Z 0) (float_of_Z 0).

Definition measurement (d : Z) (l p : string) (v : Z) : Row Float64 :=
  mkRow (Stamp d) (Some l) (Some p) (float_of_Z v) (float_of_Z 0) (float_of_Z 0).

(** A PM2.5 row of location A on 1 January whose value is 1 / 10 in
    float64, the float64 nearest to 0.1. *)
Definition tenth_row : Row Float64 :=
  mkRow (Stamp (jan 1)) (Some "A"%string) (Some "PM2.5"%string)
        (PrimFloat.div (float_of_Z 1) (float_of_Z 10))
        (float_of_Z 0) (float_of_Z 0).

(** Three rows: midnight of 1 January, 15:00 of 2 January, midnight of
    3 January. *)
Definition january_rows : DataFrame Float64 :=
  [ pm25_row (jan 1) "A" 10;
    pm25_row (jan 2 + hours 15) "A" 20;
    pm25_row (jan 3) "B" 5 ].

(** A csv frame: a full row, a row without value, a row whose value is the
    text abc, a row without location. *)
Definition csv_fixture : list CsvRow :=
  [ mkCsvRow (Some "2024-01-01") (Some "A") (Some "PM2.5")
             (Number 10) (Number 1) (Number 2);
    mkCsvRow (Some "2024-01-01") (Some "A") (Some "PM2.5")
             Missing (Number 1) (Number 2);
    mkCsvRow (Some "2024-01-02") (Some "B") (Some "PM2.5")
             (Text "abc") (Number 1) (Number 2);
    mkCsvRow (Some "2024-01-03") None (Some "PM2.5")
             (Number 7) (Number 1) (Number 2) ]%string.

Definition csv_text_value : list CsvRow :=
  [ mkCsvRow (Some "2024-01-01") (Some "A") (Some "PM2.5")
             (Text "abc") (Number 1) (Number 2) ]%string.

(** A csv frame whose second row has a date that does not parse, and no
    value. *)
Definition csv_bad_date : list CsvRow :=
  [ (mkCsvRow (Some "2024-01-01") (Some "A") (Some "PM2.5")
              (Number 10) (Number 1) (Number 2))%string ]
  ++ (mkCsvRow (Some "yesterday") (Some "A") (Some "PM2.5")
               Missing (Number 1) (Number 2))%string
  :: [ (mkCsvRow (Some "2024-01-02") (Some "B") (Some "PM2.5")
                 (Number 3) (Number 1) (Number 2))%string ].

(** A csv row without date. *)
Definition csv_undated_row : CsvRow :=
  mkCsvRow None (Some "A"%string) (Some "PM2.5"%string)
           (Number 10) (Number 1) (Number 2).

(** The January rows and one NO2 measurement. *)
Definition january_two_parameters : DataFrame Float64 :=
  january_rows ++ [measurement (jan 1) "A" "NO2" 7].

(** The row of location A in the comparison of the fixture. *)
Definition comparison_row_A : ComparisonRow :=
  mkComparisonRow (Some "A"%string)
                  (float_of_Z 15) (float_of_Z 10) (float_of_Z 20).

(** The rows of the time-series fixture. *)
Definition series_fixture : DataFrame Float64 :=
  [ pm25_row (jan 1) "A" 10; pm25_row (jan 1) "A" 20; pm25_row (jan 1) "B" 5 ].


(* ------------------------------------------------------------------ *)
(** ** Masks and filters *)

Section Masks.

Context {R : Type}.

Lemma getitem_mask_map (p : R -> bool) (df : list R) :
  getitem_mask df (map p df) = filter p df.
Proof.
  unfold getitem_mask.
  induction df as [|r df IH]; simpl; [reflexivity|].
  destruct (p r); simpl; rewrite IH; reflexivity.
Qed.

Lemma mask_and_map (p q : R -> bool) (l : list R) :
  mask_and (map p l) (map q l) = map (fun x => p x && q x) l.
Proof.
  unfold mask_and.
  induction l as [|x l IH]; simpl; [reflexivity|].
  rewrite IH; reflexivity.
Qed.

Lemma filter_idem (p : R -> bool) (l : list R) :
  filter p (filter p l) = filter p l.
Proof.
  induction l as [|x l IH]; simpl; [reflexivity|].
  destruct (p x) eqn:Hp; simpl; [rewrite Hp, IH|]; auto.
Qed.

Lemma filter_none (p : R -> bool) (l : list R) :
  (forall x, In x l -> p x = false) -> filter p l = [].
Proof.
  induction l as [|x l IH]; simpl; intros H; [reflexivity|].
  rewrite (H x (or_introl eq_refl)).
  apply IH; intros y Hy; apply H; right; exact Hy.
Qed.

End Masks.

Lemma filter_filter_and {R : Type} (p q : R -> bool) (l : list R) :
  filter q (filter p l) = filter (fun x => p x && q x) l.
Proof.
  induction l as [|x l IH]; simpl; [reflexivity|].
  destruct (p x); simpl; [destruct (q x)|]; rewrite IH; reflexivity.
Qed.

Lemma filter_map_test {A B : Type} (f : A -> B) (p : B -> bool) (l : list A) :
  filter p (map f l) = map f (filter (fun x => p (f x)) l).
Proof.
  induction l as [|x l IH]; simpl; [reflexivity|].
  destruct (p (f x)); simpl; rewrite IH; reflexivity.
Qed.

Lemma isin_filter {V : Type} (c : Row V -> Label) (df : DataFrame V)
    (values : list string) :
  getitem_mask df (isin (column c df) values)
  = filter (fun r => label_in (c r) values) df.
Proof.
  unfold isin, column.
  rewrite map_map.
  apply getitem_mask_map.
Qed.

Lemma series_eq_filter {V : Type} (df : DataFrame V) (p : string) :
  getitem_mask df (series_eq (column parameter df) p)
  = filter (fun r => label_eqb (parameter r) p) df.
Proof.
  unfold series_eq, column.
  rewrite map_map.
  apply getitem_mask_map.
Qed.

Lemma dated_within_spec {V : Type} (lo hi : Z) (r : Row V) :
  dated_within lo hi r = true <->
  exists d, date r = Stamp d /\ lo <= d < hi.
Proof.
  unfold dated_within.
  destruct (date r) as [|d].
  - split; [discriminate | intros (d & H & _); discriminate].
  - rewrite andb_true_iff, Z.leb_le, Z.ltb_lt.
    split.
    + intros [H1 H2]; exists d; auto.
    + intros (d' & H & H1); injection H as <-; lia.
Qed.

Lemma label_in_spec (c : Label) (values : list string) :
  label_in c values = true <-> exists s, c = Some s /\ In s values.
Proof.
  destruct c as [s|]; simpl.
  - rewrite existsb_exists; split.
    + intros (x & Hin & Heq); apply String.eqb_eq in Heq; subst x.
      exists s; auto.
    + intros (x & Heq & Hin); injection Heq as <-.
      exists s; split; [exact Hin | apply String.eqb_refl].
  - split; [discriminate | intros (s & H & _); discriminate].
Qed.

Lemma label_eqb_spec (c : Label) (p : string) :
  label_eqb c p = true <-> c = Some p.
Proof.
  destruct c as [s|]; simpl.
  - rewrite String.eqb_eq; split; [intros ->; reflexivity | intros H; injection H; auto].
  - split; discriminate.
Qed.

Section DateRange.

Variable parse_datetime : string -> option Datetime.

Lemma ensure_datetime_eq (x : DateLike) :
  ensure_datetime parse_datetime x = to_datetime parse_datetime x.
Proof. destruct x; reflexivity. Qed.

Lemma as_timestamp_Ok (t t' : Datetime) :
  as_timestamp t = Ok t' -> t' = t.
Proof.
  destruct t as [|ns]; simpl; [intros H; injection H; auto|].
  destruct (in_bounds ns); [intros H; injection H; auto | discriminate].
Qed.

Lemma timestamp_add_Ok (t t' : Datetime) (delta : Z) :
  timestamp_add t delta = Ok t' -> t' = dt_add t delta.
Proof.
  unfold timestamp_add.
  destruct (as_timestamp t) as [t0|] eqn:Ht; [|discriminate].
  apply as_timestamp_Ok in Ht; subst t0; cbn [bind].
  apply as_timestamp_Ok.
Qed.

Lemma timestamp_add_in_range (e : Z) :
  timestamp_min <= e -> e + ns_per_day <= timestamp_max ->
  timestamp_add (Stamp e) (Timedelta_days 1) = Ok (Stamp (e + ns_per_day)).
Proof.
  intros Hlo Hhi.
  assert (Hday : 0 < ns_per_day) by reflexivity.
  unfold timestamp_add, as_timestamp, dt_add, Timedelta_days.
  rewrite Z.mul_1_l.
  assert (H1 : in_bounds e = true).
  { unfold in_bounds; rewrite andb_true_iff, !Z.leb_le; lia. }
  rewrite H1; cbn [bind].
  assert (H2 : in_bounds (e + ns_per_day) = true).
  { unfold in_bounds; rewrite andb_true_iff, !Z.leb_le; lia. }
  rewrite H2; reflexivity.
Qed.

Lemma compare_dates_table (op : list Datetime -> Datetime -> list bool)
    (col : list Datetime) (x : Datetime) (aware : bool) :
  compare_dates op col x aware
  = (_ <- compare_dates op [] x aware ;; Ok (op col x)).
Proof. unfold compare_dates; destruct x; [|destruct aware]; reflexivity. Qed.

(** The filter is a row test once its bounds are converted; the bounds, and
    the errors, do not depend on the table. *)
Lemma date_range_as_test {V : Type} (df : DataFrame V)
    (start_date end_date : DateLike) :
  filter_data_by_date_range parse_datetime df start_date end_date
  = (b <- date_bounds parse_datetime start_date end_date ;;
     Ok (filter (in_date_range (fst b) (snd b)) df)).
Proof.
  unfold filter_data_by_date_range, date_bounds.
  destruct (ensure_datetime parse_datetime start_date) as [s|]; [|reflexivity].
  destruct (ensure_datetime parse_datetime end_date) as [e|]; [|reflexivity].
  cbn [bind].
  destruct (timestamp_add e (Timedelta_days 1)) as [e1|] eqn:He1; [|reflexivity].
  apply timestamp_add_Ok in He1; subst e1; cbn [bind].
  rewrite (compare_dates_table series_ge (column date df)).
  destruct (compare_dates series_ge [] s (tz_aware start_date)); [|reflexivity].
  cbn [bind].
  rewrite (compare_dates_table series_lt (column date df)).
  destruct (compare_dates series_lt [] _ (tz_aware end_date)); [|reflexivity].
  cbn [bind fst snd]; f_equal.
  unfold series_ge, series_lt, column.
  rewrite !map_map, mask_and_map, getitem_mask_map; reflexivity.
Qed.

Lemma date_bounds_Ok (start_date end_date : DateLike) (s e : Datetime) :
  date_bounds parse_datetime start_date end_date = Ok (s, e) ->
  to_datetime parse_datetime start_date = Ok s /\
  to_datetime parse_datetime end_date = Ok e.
Proof.
  unfold date_bounds; rewrite !ensure_datetime_eq.
  destruct (to_datetime parse_datetime start_date) as [s0|]; [|discriminate].
  destruct (to_datetime parse_datetime end_date) as [e0|]; [|discriminate].
  cbn [bind].
  destruct (timestamp_add e0 _) as [e1|]; [|discriminate]; cbn [bind].
  destruct (compare_dates series_ge [] s0 _); [|discriminate]; cbn [bind].
  destruct (compare_dates series_lt [] e1 _); [|discriminate]; cbn [bind].
  intros H; injection H as <- <-; auto.
Qed.

Lemma date_bounds_naive_in_range (start_date end_date : DateLike) (s e : Z) :
  to_datetime parse_datetime start_date = Ok (Stamp s) ->
  to_datetime parse_datetime end_date = Ok (Stamp e) ->
  tz_aware start_date = false ->
  tz_aware end_date = false ->
  timestamp_min <= e ->
  e + ns_per_day <= timestamp_max ->
  date_bounds parse_datetime start_date end_date = Ok (Stamp s, Stamp e).
Proof.
  intros Hs He Ns Ne Hlo Hhi.
  unfold date_bounds.
  rewrite !ensure_datetime_eq, Hs, He; cbn [bind].
  rewrite (timestamp_add_in_range e Hlo Hhi); cbn [bind].
  rewrite Ns, Ne; reflexivity.
Qed.

Lemma in_date_range_stamps {V : Type} (s e : Z) (r : Row V) :
  in_date_range (Stamp s) (Stamp e) r = dated_within s (e + ns_per_day) r.
Proof.
  unfold in_date_range, dated_within, dt_ge, dt_lt, dt_add, Timedelta_days.
  rewrite Z.mul_1_l; destruct (date r); reflexivity.
Qed.

Lemma date_range_stamps {V : Type} (df : DataFrame V)
    (start_date end_date : DateLike) (s e : Z) :
  to_datetime parse_datetime start_date = Ok (Stamp s) ->
  to_datetime parse_datetime end_date = Ok (Stamp e) ->
  tz_aware start_date = false ->
  tz_aware end_date = false ->
  timestamp_min <= e ->
  e + ns_per_day <= timestamp_max ->
  filter_data_by_date_range parse_datetime df start_date end_date
  = Ok (filter (dated_within s (e + ns_per_day)) df).
Proof.
  intros Hs He Ns Ne Hlo Hhi.
  rewrite date_range_as_test.
  rewrite (date_bounds_naive_in_range _ _ s e Hs He Ns Ne Hlo Hhi).
  cbn [bind fst snd]; f_equal.
  apply filter_ext; intros r; apply in_date_range_stamps.
Qed.

(** C1, as the code has it.  When the bounds are tz-naive and convert to the
    timestamps [s] and [e], with [e] and [e + 1 day] in the range of
    timestamps, the date-range filter returns, in the original row order,
    exactly the rows whose date [d] satisfies [s <= d < e + 1 day]: a row of
    the table dated on the calendar day of [e] (and not before [s]) is kept,
    a row dated [e + 1 day] is not. *)
Theorem date_range_selects_through_end_day {V : Type} (df : DataFrame V)
    (start_date end_date : DateLike) (s e : Z) :
  to_datetime parse_datetime start_date = Ok (Stamp s) ->
  to_datetime parse_datetime end_date = Ok (Stamp e) ->
  tz_aware start_date = false ->
  tz_aware end_date = false ->
  timestamp_min <= e ->
  e + ns_per_day <= timestamp_max ->
  exists out,
    filter_data_by_date_range parse_datetime df start_date end_date = Ok out /\
    out = filter (dated_within s (e + ns_per_day)) df /\
    (forall r, In r out <->
               In r df /\ exists d, date r = Stamp d /\ s <= d < e + ns_per_day) /\
    (forall r d, In r df -> date r = Stamp d -> s <= d ->
                 d / ns_per_day = e / ns_per_day -> In r out) /\
    (forall r, date r = Stamp (e + ns_per_day) -> ~ In r out).
Proof.
  intros Hs He Ns Ne Hlo Hhi.
  exists (filter (dated_within s (e + ns_per_day)) df).
  split; [apply date_range_stamps; assumption|].
  split; [reflexivity|].
  assert (Hday : 0 < ns_per_day) by reflexivity.
  repeat split.
  - apply filter_In in H; tauto.
  - apply filter_In in H; apply dated_within_spec; tauto.
  - intros [Hin Hd]; apply filter_In; split; [exact Hin|].
    apply dated_within_spec; exact Hd.
  - intros r d Hin Hd Hsd Hsame.
    apply filter_In; split; [exact Hin|].
    apply dated_within_spec; exists d; split; [exact Hd|].
    split; [exact Hsd|].
    pose proof (Z.mod_pos_bound d ns_per_day Hday) as Hm.
    pose proof (Z.mod_pos_bound e ns_per_day Hday) as Hm'.
    pose proof (Z.div_mod d ns_per_day) as Hd1.
    pose proof (Z.div_mod e ns_per_day) as He1.
    rewrite Hsame in Hd1.
    assert (ns_per_day <> 0) by lia.
    specialize (Hd1 H); specialize (He1 H).
    lia.
  - intros r Hd Hin.
    apply filter_In in Hin; destruct Hin as [_ Hin].
    apply dated_within_spec in Hin; destruct Hin as (d & Hd' & Hr).
    rewrite Hd in Hd'; injection Hd' as <-; lia.
Qed.

(** C9, as the code has it.  For tz-naive bounds that convert to the
    timestamps [s] and [e], with [e] and [e + 1 day] in the range of
    timestamps, the filter returns the empty table on every table exactly
    when [s >= e + 1 day]; this is the case whenever [s > e] and both bounds
    are at midnight.  No error is raised. *)
Theorem date_range_empty_when_start_after_end_day
    (start_date end_date : DateLike) (s e : Z) :
  to_datetime parse_datetime start_date = Ok (Stamp s) ->
  to_datetime parse_datetime end_date = Ok (Stamp e) ->
  tz_aware start_date = false ->
  tz_aware end_date = false ->
  timestamp_min <= e ->
  e + ns_per_day <= timestamp_max ->
  ((forall (V : Type) (df : DataFrame V),
       filter_data_by_date_range parse_datetime df start_date end_date = Ok [])
   <-> e + ns_per_day <= s) /\
  (at_midnight s -> at_midnight e -> e < s ->
   forall (V : Type) (df : DataFrame V),
     filter_data_by_date_range parse_datetime df start_date end_date = Ok []).
Proof.
  intros Hs He Ns Ne Hlo Hhi.
  assert (Hempty : e + ns_per_day <= s ->
            forall (V : Type) (df : DataFrame V),
              filter_data_by_date_range parse_datetime df start_date end_date
              = Ok []).
  { intros Hle V df.
    rewrite (date_range_stamps df _ _ _ _ Hs He Ns Ne Hlo Hhi).
    f_equal; apply filter_none; intros r _.
    destruct (dated_within s (e + ns_per_day) r) eqn:Hr; [|reflexivity].
    apply dated_within_spec in Hr; destruct Hr as (d & _ & Hr); lia. }
  split; [split|].
  - intros Hall.
    destruct (Z_le_gt_dec (e + ns_per_day) s) as [Hle|Hgt]; [exact Hle|].
    exfalso.
    specialize (Hall unit [mkRow (Stamp s) None None tt tt tt]).
    rewrite (date_range_stamps _ _ _ _ _ Hs He Ns Ne Hlo Hhi) in Hall.
    simpl in Hall; unfold dated_within in Hall; simpl in Hall.
    rewrite Z.leb_refl in Hall.
    destruct (s <? e + ns_per_day) eqn:Hlt; [discriminate|].
    apply Z.ltb_ge in Hlt; lia.
  - intros Hle V df; apply Hempty; exact Hle.
  - intros Ms Me Hlt V df; apply Hempty.
    unfold at_midnight in Ms, Me.
    assert (Hday : 0 < ns_per_day) by reflexivity.
    apply Z.mod_divide in Ms; [|lia]; apply Z.mod_divide in Me; [|lia].
    destruct Ms as [a ->]; destruct Me as [b ->].
    assert (Hba : b + 1 <= a).
    { apply Z.mul_lt_mono_pos_r in Hlt; [lia | exact Hday]. }
    apply (Z.mul_le_mono_nonneg_r _ _ ns_per_day) in Hba; lia.
Qed.

(** The date-range filter applied to its own result changes nothing; when
    the bounds raise, both sides raise the same error. *)
Lemma date_range_idempotent {V : Type} (df : DataFrame V)
    (start_date end_date : DateLike) :
  (out <- filter_data_by_date_range parse_datetime df start_date end_date ;;
   filter_data_by_date_range parse_datetime out start_date end_date)
  = filter_data_by_date_range parse_datetime df start_date end_date.
Proof.
  rewrite date_range_as_test.
  destruct (date_bounds parse_datetime start_date end_date) as [b|err] eqn:Hb;
    cbn [bind]; [|reflexivity].
  rewrite date_range_as_test, Hb; cbn [bind].
  rewrite filter_idem; reflexivity.
Qed.

End DateRange.

(* ------------------------------------------------------------------ *)
(** ** The location and parameter filters *)

Lemma location_filter_nonempty {V : Type} (df : DataFrame V)
    (l : string) (ls : list string) :
  filter_data_by_location df (Some (l :: ls))
  = filter (fun r => label_in (location r) (l :: ls)) df.
Proof.
  unfold filter_data_by_location; cbn [falsy].
  apply isin_filter.
Qed.

Lemma parameter_filter_many {V : Type} (df : DataFrame V) (ps : list string) :
  filter_data_by_parameter df (ManyParams ps)
  = filter (fun r => label_in (parameter r) ps) df.
Proof.
  unfold filter_data_by_parameter.
  apply isin_filter.
Qed.

(** C6.  With no selector, or an empty one, the location filter returns its
    input as it is; with a non-empty selector it returns, in row order,
    exactly the rows whose location is one of the selected ones. *)
Theorem location_filter_identity_or_membership {V : Type} (df : DataFrame V) :
  filter_data_by_location df None = df /\
  filter_data_by_location df (Some []) = df /\
  forall (l : string) (ls : list string),
    filter_data_by_location df (Some (l :: ls))
    = filter (fun r => label_in (location r) (l :: ls)) df /\
    forall r, In r (filter_data_by_location df (Some (l :: ls))) <->
              In r df /\ exists s, location r = Some s /\ In s (l :: ls).
Proof.
  split; [reflexivity|].
  split; [reflexivity|].
  intros l ls.
  split; [apply location_filter_nonempty|].
  intros r.
  rewrite location_filter_nonempty, filter_In, label_in_spec.
  reflexivity.
Qed.

(** C5.  The parameter filter has no special case for an empty selection:
    it returns no row at all, while the location filter returns its input
    unchanged on an empty selection. *)
Theorem parameter_filter_empty_selection {V : Type} (df : DataFrame V) :
  filter_data_by_parameter df (ManyParams []) = [] /\
  filter_data_by_location df (Some []) = df.
Proof.
  split; [|reflexivity].
  rewrite parameter_filter_many.
  apply filter_none; intros r _.
  destruct (parameter r); reflexivity.
Qed.

(** C7.  A single parameter identifier gives the same result as the list
    that holds just this identifier. *)
Theorem parameter_filter_scalar_is_singleton {V : Type}
    (df : DataFrame V) (p : string) :
  filter_data_by_parameter df (OneParam p)
  = filter_data_by_parameter df (ManyParams [p]) /\
  forall r, In r (filter_data_by_parameter df (OneParam p)) <->
            In r df /\ parameter r = Some p.
Proof.
  split; [reflexivity|].
  intros r.
  change (filter_data_by_parameter df (OneParam p))
    with (filter_data_by_parameter df (ManyParams [p])).
  rewrite parameter_filter_many, filter_In, label_in_spec.
  split.
  - intros [Hin (s & Hs & [<-|[]])]; auto.
  - intros [Hin Hp]; split; [exact Hin|].
    exists p; split; [exact Hp | left; reflexivity].
Qed.

(** C8.  Each of the three filters, applied again to its own result with the
    same arguments, returns that result. *)
Theorem filters_idempotent {V : Type} (df : DataFrame V) :
  (forall parse_datetime start_date end_date,
      (out <- filter_data_by_date_range parse_datetime df start_date end_date ;;
       filter_data_by_date_range parse_datetime out start_date end_date)
      = filter_data_by_date_range parse_datetime df start_date end_date) /\
  (forall locations,
      filter_data_by_location (filter_data_by_location df locations) locations
      = filter_data_by_location df locations) /\
  (forall parameters,
      filter_data_by_parameter (filter_data_by_parameter df parameters) parameters
      = filter_data_by_parameter df parameters).
Proof.
  split; [|split].
  - intros; apply date_range_idempotent.
  - intros [[|l ls]|]; try reflexivity.
    rewrite !location_filter_nonempty.
    apply filter_idem.
  - intros [p|ps]; unfold filter_data_by_parameter;
      rewrite !isin_filter; apply filter_idem.
Qed.

(* ------------------------------------------------------------------ *)
(** ** The order on group keys *)

Module KeyOrder.

Lemma ascii_compare_refl (a : ascii) : Ascii.compare a a = Eq.
Proof. unfold Ascii.compare; apply N.compare_refl. Qed.

Lemma ascii_compare_lt_trans (a b c : ascii) :
  Ascii.compare a b = Lt -> Ascii.compare b c = Lt -> Ascii.compare a c = Lt.
Proof.
  unfold Ascii.compare; rewrite !N.compare_lt_iff; apply N.lt_trans.
Qed.

Lemma string_compare_refl (s : string) : String.compare s s = Eq.
Proof.
  induction s as [|a s IH]; simpl; [reflexivity|].
  rewrite ascii_compare_refl; exact IH.
Qed.

Lemma string_compare_lt_trans (s1 : string) :
  forall s2 s3,
    String.compare s1 s2 = Lt -> String.compare s2 s3 = Lt ->
    String.compare s1 s3 = Lt.
Proof.
  induction s1 as [|a s1 IH]; intros [|b s2] [|c s3]; simpl;
    try discriminate; try reflexivity.
  destruct (Ascii.compare a b) eqn:Hab; try discriminate;
    destruct (Ascii.compare b c) eqn:Hbc; try discriminate; intros H12 H23.
  - apply Ascii.compare_eq_iff in Hab, Hbc; subst.
    rewrite ascii_compare_refl; eauto.
  - apply Ascii.compare_eq_iff in Hab; subst; rewrite Hbc; reflexivity.
  - apply Ascii.compare_eq_iff in Hbc; subst; rewrite Hab; reflexivity.
  - rewrite (ascii_compare_lt_trans _ _ _ Hab Hbc); reflexivity.
Qed.

Lemma compare_eq (a b : GroupKey) : key_compare a b = Eq -> a = b.
Proof.
  destruct a as [d1 l1], b as [d2 l2]; unfold key_compare; simpl.
  destruct (d1 ?= d2) eqn:Hd; try discriminate.
  apply Z.compare_eq in Hd; intros Hl.
  apply String.compare_eq_iff in Hl; subst; reflexivity.
Qed.

Lemma compare_refl (a : GroupKey) : key_compare a a = Eq.
Proof.
  unfold key_compare; rewrite Z.compare_refl; apply string_compare_refl.
Qed.

Lemma compare_gt_lt (a b : GroupKey) : key_compare a b = Gt -> key_lt b a.
Proof.
  destruct a as [d1 l1], b as [d2 l2]; unfold key_lt, key_compare; simpl.
  rewrite (Z.compare_antisym d1 d2), (String.compare_antisym l2 l1).
  destruct (d1 ?= d2); simpl; try discriminate; try reflexivity.
  destruct (String.compare l1 l2); simpl; try discriminate; reflexivity.
Qed.

Lemma lt_irrefl (a : GroupKey) : ~ key_lt a a.
Proof. unfold key_lt; rewrite compare_refl; discriminate. Qed.

Lemma lt_trans (a b c : GroupKey) : key_lt a b -> key_lt b c -> key_lt a c.
Proof.
  destruct a as [d1 l1], b as [d2 l2], c as [d3 l3].
  unfold key_lt, key_compare; simpl.
  destruct (d1 ?= d2) eqn:H12; try discriminate;
    destruct (d2 ?= d3) eqn:H23; try discriminate; intros Ha Hb.
  - apply Z.compare_eq in H12, H23; subst.
    rewrite Z.compare_refl; eapply string_compare_lt_trans; eauto.
  - apply Z.compare_eq in H12; subst; rewrite H23; reflexivity.
  - apply Z.compare_eq in H23; subst; rewrite H12; reflexivity.
  - rewrite Z.compare_lt_iff in H12, H23.
    assert (Hlt : (d1 ?= d3) = Lt) by (apply Z.compare_lt_iff; lia).
    rewrite Hlt; reflexivity.
Qed.

Lemma eqb_eq (a b : GroupKey) : key_eqb a b = true <-> a = b.
Proof.
  destruct a as [d1 l1], b as [d2 l2]; unfold key_eqb; simpl.
  rewrite andb_true_iff, Z.eqb_eq, String.eqb_eq.
  split; [intros [-> ->]; reflexivity | intros H; injection H; auto].
Qed.

End KeyOrder.

(* ------------------------------------------------------------------ *)
(** ** Group keys: sorted, without repetition, and complete *)

Lemma insert_key_In (k x : GroupKey) (ks : list GroupKey) :
  In x (insert_key k ks) <-> x = k \/ In x ks.
Proof.
  induction ks as [|k' ks IH]; simpl.
  - intuition.
  - destruct (key_compare k k') eqn:Hc; simpl.
    + apply KeyOrder.compare_eq in Hc; subst k'; intuition.
    + intuition.
    + rewrite IH; intuition.
Qed.

Lemma insert_key_sorted (k : GroupKey) (ks : list GroupKey) :
  StronglySorted key_lt ks -> StronglySorted key_lt (insert_key k ks).
Proof.
  induction 1 as [|k' ks Hs IH Hall]; simpl.
  - constructor; constructor.
  - destruct (key_compare k k') eqn:Hc.
    + constructor; assumption.
    + constructor; [constructor; assumption|].
      constructor; [exact Hc|].
      eapply Forall_impl; [|exact Hall].
      intros x Hx; exact (KeyOrder.lt_trans _ _ _ Hc Hx).
    + constructor; [exact IH|].
      apply Forall_forall; intros x Hx.
      apply insert_key_In in Hx; destruct Hx as [->|Hx].
      * apply KeyOrder.compare_gt_lt; exact Hc.
      * rewrite Forall_forall in Hall; auto.
Qed.

Lemma group_keys_sorted {V : Type} (df : DataFrame V) :
  StronglySorted key_lt (group_keys df).
Proof.
  induction df as [|r df IH]; simpl; [constructor|].
  destruct (group_key r); [apply insert_key_sorted|]; exact IH.
Qed.

Lemma sorted_NoDup (ks : list GroupKey) :
  StronglySorted key_lt ks -> NoDup ks.
Proof.
  induction 1 as [|k ks Hs IH Hall]; constructor; [|exact IH].
  intros Hin; rewrite Forall_forall in Hall.
  exact (KeyOrder.lt_irrefl k (Hall k Hin)).
Qed.

Lemma group_keys_In {V : Type} (df : DataFrame V) (k : GroupKey) :
  In k (group_keys df) <-> exists r, In r df /\ group_key r = Some k.
Proof.
  induction df as [|r df IH]; simpl.
  - split; [intros [] | intros (r & [] & _)].
  - destruct (group_key r) as [k'|] eqn:Hk.
    + rewrite insert_key_In, IH; split.
      * intros [->|(r' & Hin & Hr')]; [exists r | exists r']; auto.
      * intros (r' & [<-|Hin] & Hr').
        -- left; congruence.
        -- right; exists r'; auto.
    + rewrite IH; split.
      * intros (r' & Hin & Hr'); exists r'; auto.
      * intros (r' & [<-|Hin] & Hr'); [congruence | exists r'; auto].
Qed.

Lemma group_key_Some {V : Type} (r : Row V) (d : Z) (l : string) :
  group_key r = Some (d, l) <-> date r = Stamp d /\ location r = Some l.
Proof.
  unfold group_key.
  destruct (date r) as [|d']; [split; [discriminate | intros [? _]; discriminate]|].
  destruct (location r) as [l'|]; [|split; [discriminate | intros [_ ?]; discriminate]].
  split; [intros H; injection H as -> ->; auto | intros [H1 H2]; congruence].
Qed.

(* ------------------------------------------------------------------ *)
(** ** The time-series aggregation *)

Lemma measures_spec {V : Type} (p : string) (d : Z) (l : string) (r : Row V) :
  measures p d l r = true <->
  parameter r = Some p /\ date r = Stamp d /\ location r = Some l.
Proof.
  unfold measures.
  rewrite !andb_true_iff, label_eqb_spec.
  destruct (date r) as [|d']; destruct (location r) as [l'|]; simpl;
    rewrite ?Z.eqb_eq, ?String.eqb_eq;
    intuition (try discriminate; try congruence).
Qed.

Lemma in_group_measures {V : Type} (p : string) (d : Z) (l : string) (r : Row V) :
  label_eqb (parameter r) p && in_group (d, l) r = measures p d l r.
Proof.
  unfold measures, in_group, group_key, key_eqb.
  rewrite <- andb_assoc; f_equal.
  destruct (date r) as [|d']; destruct (location r) as [l'|]; simpl;
    rewrite ?andb_false_r; reflexivity.
Qed.

Lemma nanmean_spec (vs : list Float64) : is_mean_of (nanmean vs) vs.
Proof.
  unfold is_mean_of, nanmean.
  destruct (present vs) as [|q qs]; split; intros H;
    try reflexivity; congruence.
Qed.


Lemma series_rows_keys (df : DataFrame Float64) :
  map series_key (groupby_date_location_mean df)
  = map (fun k => (Stamp (fst k), Some (snd k))) (group_keys df).
Proof.
  unfold groupby_date_location_mean.
  rewrite map_map; reflexivity.
Qed.

Lemma stamp_key_injective (k1 k2 : GroupKey) :
  (Stamp (fst k1), Some (snd k1)) = (Stamp (fst k2), Some (snd k2)) -> k1 = k2.
Proof.
  destruct k1, k2; simpl; intros H; injection H as -> ->; reflexivity.
Qed.

Lemma NoDup_map_injective {A B : Type} (f : A -> B) (l : list A) :
  (forall x y, f x = f y -> x = y) -> NoDup l -> NoDup (map f l).
Proof.
  intros Hinj; induction 1 as [|x l Hx Hl IH]; simpl; constructor; [|exact IH].
  rewrite in_map_iff; intros (y & Hy & Hin).
  apply Hinj in Hy; subst y; exact (Hx Hin).
Qed.

Lemma time_series_keys (df : DataFrame Float64) (param freq : string)
    (d : Z) (l : string) :
  In (Stamp d, Some l)
     (map series_key (aggregate_data_for_time_series df param freq)) <->
  exists r, In r df /\ parameter r = Some param /\
            date r = Stamp d /\ location r = Some l.
Proof.
  unfold aggregate_data_for_time_series; cbv zeta.
  rewrite series_eq_filter, series_rows_keys, in_map_iff.
  split.
  - intros (k & Hk & Hin).
    apply (stamp_key_injective k (d, l)) in Hk; subst k.
    apply group_keys_In in Hin; destruct Hin as (r & Hr & Hkey).
    apply filter_In in Hr; destruct Hr as [Hr Hp].
    apply label_eqb_spec in Hp; apply group_key_Some in Hkey.
    exists r; tauto.
  - intros (r & Hr & Hp & Hd & Hl).
    exists (d, l); split; [reflexivity|].
    apply group_keys_In; exists r; split.
    + apply filter_In; split; [exact Hr | apply label_eqb_spec; exact Hp].
    + apply group_key_Some; auto.
Qed.

(** C3, as the code has it.  The time-series aggregation keeps the rows of
    the given parameter and, among them, those whose date and location are
    both present; it returns one row for every (date, location) pair of
    these, no pair twice, each with the float64 mean of the values of the
    rows of that pair that are not NaN: their compensated sum in row order
    divided by their number (NaN when there is none).  The fixture gives
    (2024-01-01, A, 15) and (2024-01-01, B, 5); a table without a row of the
    parameter gives the empty table. *)
Theorem time_series_is_mean_per_date_and_location
    (df : DataFrame Float64) (param freq : string) :
  let out := aggregate_data_for_time_series df param freq in
  NoDup (map series_key out) /\
  (forall o, In o out ->
     exists d l, series_key o = (Stamp d, Some l)) /\
  (forall d l, In (Stamp d, Some l) (map series_key out) <->
     exists r, In r df /\ parameter r = Some param /\
               date r = Stamp d /\ location r = Some l) /\
  (forall o d l, In o out -> series_key o = (Stamp d, Some l) ->
     is_mean_of (ts_value o) (map value (filter (measures param d l) df))) /\
  ((forall r, In r df -> parameter r <> Some param) -> out = []) /\
  aggregate_data_for_time_series series_fixture "PM2.5" freq
  = [ mkSeriesRow (Stamp (jan 1)) (Some "A"%string) (float_of_Z 15);
      mkSeriesRow (Stamp (jan 1)) (Some "B"%string) (float_of_Z 5) ].
Proof.
  intros out.
  split; [|split; [|split; [|split; [|split]]]];
    try (intros d l; apply time_series_keys);
    unfold out, aggregate_data_for_time_series; cbv zeta;
    rewrite ?series_eq_filter;
    set (param_df := filter (fun r => label_eqb (parameter r) param) df).
  - rewrite series_rows_keys.
    apply NoDup_map_injective; [apply stamp_key_injective|].
    apply sorted_NoDup, group_keys_sorted.
  - intros o Ho.
    unfold groupby_date_location_mean in Ho.
    apply in_map_iff in Ho; destruct Ho as ([d l] & <- & _).
    exists d, l; reflexivity.
  - intros o d l Ho Hkey.
    unfold groupby_date_location_mean in Ho.
    apply in_map_iff in Ho; destruct Ho as (k & <- & _).
    apply (stamp_key_injective k (d, l)) in Hkey; subst k.
    cbn [ts_value]; unfold param_df, column.
    rewrite filter_filter_and.
    rewrite (filter_ext _ (measures param d l)
               (fun r => in_group_measures param d l r)).
    apply nanmean_spec.
  - intros Hnone.
    assert (Hempty : param_df = []).
    { apply filter_none; intros r Hr.
      destruct (label_eqb (parameter r) param) eqn:Hp; [|reflexivity].
      apply label_eqb_spec in Hp; elim (Hnone r Hr Hp). }
    rewrite Hempty; reflexivity.
  - vm_compute; reflexivity.
Qed.

(** C10.  The frequency argument is never read: any two values of it give
    the same table, whose keys are the exact dates of the rows. *)
Theorem time_series_ignores_freq
    (df : DataFrame Float64) (param f1 f2 : string) :
  aggregate_data_for_time_series df param f1
  = aggregate_data_for_time_series df param f2 /\
  forall d l, In (Stamp d, Some l)
                 (map series_key (aggregate_data_for_time_series df param f1)) ->
              exists r, In r df /\ date r = Stamp d.
Proof.
  split; [reflexivity|].
  intros d l Hin.
  apply time_series_keys in Hin.
  destruct Hin as (r & Hr & _ & Hd & _); exists r; auto.
Qed.

(* ------------------------------------------------------------------ *)
(** ** The correlation join *)

Lemma datetime_eqb_eq (a b : Datetime) : datetime_eqb a b = true <-> a = b.
Proof.
  destruct a as [|x], b as [|y]; simpl; rewrite ?Z.eqb_eq;
    split; intros H; try discriminate; try reflexivity; congruence.
Qed.

Lemma label_cell_eqb_eq (a b : Label) : label_cell_eqb a b = true <-> a = b.
Proof.
  destruct a as [x|], b as [y|]; simpl; rewrite ?String.eqb_eq;
    split; intros H; try discriminate; try reflexivity; congruence.
Qed.

Lemma join_key_eqb_eq (a b : Datetime * Label * Float64) :
  join_key_eqb a b = true <-> fst a = fst b.
Proof.
  destruct a as [[d1 l1] v1], b as [[d2 l2] v2]; unfold join_key_eqb; simpl.
  rewrite andb_true_iff, datetime_eqb_eq, label_cell_eqb_eq.
  split; [intros [-> ->]; reflexivity | intros H; injection H; auto].
Qed.

Lemma merge_inner_records (left right : ValueFrame) (o : PairRow) :
  In o (records (merge_inner left right)) <->
  exists a b, In a (value_rows left) /\ In b (value_rows right) /\
              fst a = fst b /\
              o = mkPairRow (fst (fst a)) (snd (fst a)) (snd a) (snd b).
Proof.
  unfold merge_inner; cbn [records].
  rewrite in_flat_map; split.
  - intros (a & Ha & Ho).
    apply in_map_iff in Ho; destruct Ho as (b & <- & Hb).
    apply filter_In in Hb; destruct Hb as [Hb Hk].
    apply join_key_eqb_eq in Hk.
    exists a, b; auto.
  - intros (a & b & Ha & Hb & Hk & ->).
    exists a; split; [exact Ha|].
    apply in_map_iff; exists b; split; [reflexivity|].
    apply filter_In; split; [exact Hb | apply join_key_eqb_eq; exact Hk].
Qed.

Lemma selected_rows (df : DataFrame Float64) (p : string)
    (a : Datetime * Label * Float64) :
  In a (value_rows
          (rename_and_select
             (getitem_mask df (series_eq (column parameter df) p)) p)) <->
  exists r, In r df /\ parameter r = Some p /\
            a = (date r, location r, value r).
Proof.
  unfold rename_and_select; cbn [value_rows].
  rewrite series_eq_filter, in_map_iff; split.
  - intros (r & <- & Hr).
    apply filter_In in Hr; destruct Hr as [Hr Hp].
    apply label_eqb_spec in Hp; exists r; auto.
  - intros (r & Hr & Hp & ->).
    exists r; split; [reflexivity|].
    apply filter_In; split; [exact Hr | apply label_eqb_spec; exact Hp].
Qed.

Lemma correlation_records (df : DataFrame Float64) (param1 param2 : string)
    (o : PairRow) :
  In o (records (prepare_correlation_data df param1 param2)) <->
  exists r1 r2,
    In r1 df /\ In r2 df /\
    parameter r1 = Some param1 /\ parameter r2 = Some param2 /\
    row_key r1 = row_key r2 /\
    o = mkPairRow (date r1) (location r1) (value r1) (value r2).
Proof.
  unfold prepare_correlation_data; cbv zeta.
  rewrite merge_inner_records; split.
  - intros (a & b & Ha & Hb & Hk & ->).
    apply selected_rows in Ha, Hb.
    destruct Ha as (r1 & Hr1 & Hp1 & ->), Hb as (r2 & Hr2 & Hp2 & ->).
    exists r1, r2; simpl in *; unfold row_key; auto 10.
  - intros (r1 & r2 & Hr1 & Hr2 & Hp1 & Hp2 & Hk & ->).
    exists (date r1, location r1, value r1), (date r2, location r2, value r2).
    repeat split; try (apply selected_rows; eauto); exact Hk.
Qed.

Lemma has_key_spec {V : Type} (k : Datetime * Label) (r : Row V) :
  has_key k r = true <-> row_key r = k.
Proof.
  destruct k as [d l]; unfold has_key, row_key; simpl.
  rewrite andb_true_iff, datetime_eqb_eq, label_cell_eqb_eq.
  split; [intros [-> ->]; reflexivity | intros H; injection H; auto].
Qed.

Lemma flat_map_map {A B C : Type} (f : B -> list C) (g : A -> B) (l : list A) :
  flat_map f (map g l) = flat_map (fun x => f (g x)) l.
Proof.
  induction l as [|x l IH]; simpl; [reflexivity | rewrite IH; reflexivity].
Qed.

(** The rows of the correlation frame, read off the table: for every row of
    param1 in row order, one row for every row of param2 with the same key,
    in row order. *)
Lemma correlation_records_list (df : DataFrame Float64) (param1 param2 : string) :
  records (prepare_correlation_data df param1 param2)
  = flat_map
      (joined_with param2 df
         (fun r1 r2 => mkPairRow (date r1) (location r1) (value r1) (value r2)))
      (filter (fun r => label_eqb (parameter r) param1) df).
Proof.
  unfold prepare_correlation_data, merge_inner, rename_and_select; cbv zeta.
  cbn [records value_rows].
  rewrite !series_eq_filter, flat_map_map.
  apply flat_map_ext; intros r1.
  unfold joined_with, rows_of.
  rewrite filter_map_test, map_map, filter_filter_and.
  reflexivity.
Qed.



(* ------------------------------------------------------------------ *)
(** ** The loader *)

Section Loader.

Variable parse_datetime : string -> option Datetime.

Lemma convert_date_total (c : CsvRow) :
  (forall s, csv_date c = Some s -> parse_datetime s <> None) ->
  exists r, convert_date parse_datetime c = Ok r /\
            converted_by parse_datetime c r.
Proof.
  intros Hparse.
  unfold convert_date, converted_by, to_datetime_cell.
  destruct (csv_date c) as [s|]; simpl.
  - destruct (parse_datetime s) as [t|] eqn:Hs.
    + eexists; split; [reflexivity|]; simpl; rewrite ?Hs; auto 10.
    + elim (Hparse s eq_refl Hs).
  - eexists; split; [reflexivity|]; simpl; auto 10.
Qed.

Lemma mapM_convert_total (csv : list CsvRow) :
  (forall c s, In c csv -> csv_date c = Some s -> parse_datetime s <> None) ->
  exists full,
    mapM (convert_date parse_datetime) csv = Ok full /\
    Forall2 (converted_by parse_datetime) csv full.
Proof.
  induction csv as [|c csv IH]; intros Hparse.
  - exists []; split; [reflexivity | constructor].
  - destruct (convert_date_total c) as (r & Hr & Hc).
    { intros s; apply Hparse; left; reflexivity. }
    destruct IH as (full & Hfull & Hall).
    { intros c' s Hin; apply Hparse; right; exact Hin. }
    exists (r :: full); split; [|constructor; assumption].
    simpl; rewrite Hr; simpl; rewrite Hfull; reflexivity.
Qed.

Lemma converted_complete (c : CsvRow) (r : Row Field) :
  converted_by parse_datetime c r -> complete r = negb (csv_missing c).
Proof.
  intros (_ & _ & _ & Hv & Hla & Hlo).
  unfold complete, csv_missing; rewrite Hv, Hla, Hlo, negb_involutive.
  reflexivity.
Qed.

Lemma count_converted (csv : list CsvRow) (full : DataFrame Field) :
  Forall2 (converted_by parse_datetime) csv full ->
  List.length full = List.length csv /\
  (List.length (filter complete full) + count csv_missing csv
   = List.length csv)%nat.
Proof.
  unfold count.
  induction 1 as [|c r csv full Hc Hall IH]; simpl; [auto|].
  rewrite (converted_complete c r Hc).
  destruct IH as [IH1 IH2].
  destruct (csv_missing c); simpl; lia.
Qed.

(** C4, as the code has it.  When every date of the file parses, the loader
    returns the rows of the file, dates converted, without the rows in which
    value, lat or lon is missing: N - M rows for N rows of which M have such
    a missing cell.  A cell holding text that is not a number is not
    missing, and its row is kept; so is a row whose location or parameter is
    missing.  Every row returned has value, lat and lon present. *)
Theorem load_drops_rows_with_missing_cells (csv : list CsvRow) :
  (forall c s, In c csv -> csv_date c = Some s -> parse_datetime s <> None) ->
  exists full df,
    load_and_process_data parse_datetime csv = Ok df /\
    Forall2 (converted_by parse_datetime) csv full /\
    df = filter complete full /\
    List.length df = (List.length csv - count csv_missing csv)%nat /\
    (forall r, In r df <->
               In r full /\
               value r <> Missing /\ lat r <> Missing /\ lon r <> Missing) /\
    (forall r, In r full -> (location r = None \/ parameter r = None) ->
               complete r = true -> In r df).
Proof.
  intros Hparse.
  destruct (mapM_convert_total csv Hparse) as (full & Hfull & Hall).
  exists full, (filter complete full).
  split.
  { unfold load_and_process_data; rewrite Hfull; reflexivity. }
  split; [exact Hall|].
  split; [reflexivity|].
  split.
  { destruct (count_converted csv full Hall) as [_ H]; lia. }
  split.
  - intros r; rewrite filter_In; unfold complete.
    rewrite !andb_true_iff.
    destruct (value r), (lat r), (lon r); simpl;
      intuition (try discriminate; try congruence).
  - intros r Hin _ Hc; apply filter_In; auto.
Qed.

End Loader.

(* ------------------------------------------------------------------ *)
(** ** The theorems on the fixtures *)

(** Bounds 2024-01-01 and 2024-01-02 on the January rows: the row of 15:00 on
    2 January is kept, the row of midnight 3 January is not. *)
Lemma date_range_january_rows :
  to_datetime iso_jan_2024 (PyStr "2024-01-01") = Ok (Stamp (jan 1)) /\
  to_datetime iso_jan_2024 (PyStr "2024-01-02") = Ok (Stamp (jan 2)) /\
  timestamp_min <= jan 2 /\ jan 2 + ns_per_day <= timestamp_max /\
  filter_data_by_date_range iso_jan_2024 january_rows
    (PyStr "2024-01-01") (PyStr "2024-01-02")
  = Ok [ pm25_row (jan 1) "A" 10; pm25_row (jan 2 + hours 15) "A" 20 ].
Proof.
  assert (Hlo : timestamp_min <= jan 2) by (vm_compute; discriminate).
  assert (Hhi : jan 2 + ns_per_day <= timestamp_max) by (vm_compute; discriminate).
  repeat (split; [reflexivity || assumption|]).
  destruct (date_range_selects_through_end_day iso_jan_2024 january_rows
              (PyStr "2024-01-01") (PyStr "2024-01-02") (jan 1) (jan 2)
              eq_refl eq_refl eq_refl eq_refl Hlo Hhi) as (out & Hout & Heq & _).
  rewrite Hout, Heq; reflexivity.
Defined.

(** A pd.Timestamp.max as end bound, and a tz-aware start bound: the filter
    raises, it returns no table. *)
Lemma date_range_raises_out_of_range_or_aware :
  to_datetime iso_jan_2024 (PyDatetime timestamp_max)
  = Ok (Stamp timestamp_max) /\
  filter_data_by_date_range iso_jan_2024 january_rows
    (PyStr "2024-01-01") (PyDatetime timestamp_max)
  = Raise OutOfBoundsDatetime /\
  to_datetime iso_jan_2024 (PyDatetimeTz (jan 1)) = Ok (Stamp (jan 1)) /\
  filter_data_by_date_range iso_jan_2024 january_rows
    (PyDatetimeTz (jan 1)) (PyStr "2024-01-02")
  = Raise TypeError.
Proof.
  repeat split; reflexivity.
Qed.

(** Start 2024-01-03 after end 2024-01-01, both at midnight: no row. *)
Lemma date_range_reversed_days :
  to_datetime iso_jan_2024 (PyStr "2024-01-03") = Ok (Stamp (jan 3)) /\
  to_datetime iso_jan_2024 (PyStr "2024-01-01") = Ok (Stamp (jan 1)) /\
  at_midnight (jan 3) /\ at_midnight (jan 1) /\ jan 1 < jan 3 /\
  timestamp_min <= jan 1 /\ jan 1 + ns_per_day <= timestamp_max /\
  filter_data_by_date_range iso_jan_2024 january_rows
    (PyStr "2024-01-03") (PyStr "2024-01-01") = Ok [].
Proof.
  assert (Hlo : timestamp_min <= jan 1) by (vm_compute; discriminate).
  assert (Hhi : jan 1 + ns_per_day <= timestamp_max) by (vm_compute; discriminate).
  repeat (split; [reflexivity || assumption|]).
  destruct (date_range_empty_when_start_after_end_day iso_jan_2024
              (PyStr "2024-01-03") (PyStr "2024-01-01") (jan 3) (jan 1)
              eq_refl eq_refl eq_refl eq_refl Hlo Hhi) as [_ H].
  exact (H eq_refl eq_refl eq_refl Float64 january_rows).
Defined.

(** Three pairs of bounds with the start after the end.  Start at noon of
    2 January and end 2024-01-02: the row of 15:00 on 2 January is returned.
    Start pd.Timestamp.max and end one hour before: the filter raises.
    Tz-aware bounds 3 January and 1 January: the filter raises. *)
Lemma date_range_start_after_end_same_day :
  (to_datetime iso_jan_2024 (PyDatetime (jan 2 + hours 12))
   = Ok (Stamp (jan 2 + hours 12)) /\
   to_datetime iso_jan_2024 (PyStr "2024-01-02") = Ok (Stamp (jan 2)) /\
   jan 2 + hours 12 > jan 2 /\
   filter_data_by_date_range iso_jan_2024 [pm25_row (jan 2 + hours 15) "A" 20]
     (PyDatetime (jan 2 + hours 12)) (PyStr "2024-01-02")
   = Ok [pm25_row (jan 2 + hours 15) "A" 20] /\
   filter_data_by_date_range iso_jan_2024 [pm25_row (jan 2 + hours 15) "A" 20]
     (PyDatetime (jan 2 + hours 12)) (PyStr "2024-01-02")
   <> Ok []) /\
  (timestamp_max > timestamp_max - hours 1 /\
   filter_data_by_date_range iso_jan_2024 january_rows
     (PyDatetime timestamp_max) (PyDatetime (timestamp_max - hours 1))
   = Raise OutOfBoundsDatetime) /\
  (jan 3 > jan 1 /\
   filter_data_by_date_range iso_jan_2024 january_rows
     (PyDatetimeTz (jan 3)) (PyDatetimeTz (jan 1))
   = Raise TypeError).
Proof.
  repeat (split; [reflexivity|]).
  split; [|repeat split; reflexivity].
  repeat (split; [reflexivity|]).
  vm_compute; discriminate.
Qed.

(** One PM2.5 row without location: the row is selected by the parameter,
    and the aggregation has no row for it.  Three PM2.5 rows of one date and
    location, each with the float64 nearest to 0.1 as value: their mean in
    the table is greater than that value, it is not their arithmetic
    mean. *)
Lemma time_series_leaves_out_missing_location :
  (map row_key
       (filter_data_by_parameter
          [mkRow (Stamp (jan 1)) None (Some "PM2.5"%string)
                 (float_of_Z 10) (float_of_Z 0) (float_of_Z 0)]
          (OneParam "PM2.5"))
   = [(Stamp (jan 1), None)] /\
   aggregate_data_for_time_series
     [mkRow (Stamp (jan 1)) None (Some "PM2.5"%string)
            (float_of_Z 10) (float_of_Z 0) (float_of_Z 0)]
     "PM2.5" "D"
   = []) /\
  (exists m,
     aggregate_data_for_time_series
       [tenth_row; tenth_row; tenth_row] "PM2.5" "D"
     = [mkSeriesRow (Stamp (jan 1)) (Some "A"%string) m] /\
     isnan m = false /\
     PrimFloat.ltb (value tenth_row) m = true).
Proof.
  split; [split; reflexivity|].
  eexists; split; [vm_compute; reflexivity|].
  split; vm_compute; reflexivity.
Qed.


Lemma csv_fixture_dates_parse :
  forall c s, In c csv_fixture -> csv_date c = Some s ->
              iso_jan_2024 s <> None.
Proof.
  intros c s [<-|[<-|[<-|[<-|[]]]]] H; injection H as <-; discriminate.
Defined.

(** Four rows, one without value: three rows are loaded, the text value and
    the missing location among them. *)
Lemma load_csv_fixture :
  exists df,
    load_and_process_data iso_jan_2024 csv_fixture = Ok df /\
    List.length df = 3%nat.
Proof.
  destruct (load_drops_rows_with_missing_cells iso_jan_2024 csv_fixture
              csv_fixture_dates_parse)
    as (full & df & Hload & _ & _ & Hlen & _).
  exists df; split; [exact Hload | exact Hlen].
Defined.

(** One row whose value is the text abc: it is not a number, and it is
    loaded. *)
Lemma load_keeps_text_value :
  exists df,
    load_and_process_data iso_jan_2024 csv_text_value = Ok df /\
    (List.length csv_text_value = 1)%nat /\
    (count csv_missing_or_unparseable csv_text_value = 1)%nat /\
    List.length df
    <> (List.length csv_text_value
        - count csv_missing_or_unparseable csv_text_value)%nat.
Proof.
  eexists; split; [reflexivity|].
  repeat (split; [reflexivity|]).
  vm_compute; discriminate.
Qed.

(* ------------------------------------------------------------------ *)
(** ** Further properties: the filters as row tests *)

Lemma location_filter_as_test {V : Type} (df : DataFrame V)
    (locations : option (list string)) :
  filter_data_by_location df locations = filter (keeps_location locations) df.
Proof.
  destruct locations as [[|l ls]|]; simpl.
  - symmetry; apply forallb_filter_id, forallb_forall; reflexivity.
  - apply location_filter_nonempty.
  - symmetry; apply forallb_filter_id, forallb_forall; reflexivity.
Qed.

Lemma parameter_filter_as_test {V : Type} (df : DataFrame V)
    (parameters : ParamSel) :
  filter_data_by_parameter df parameters = filter (keeps_parameter parameters) df.
Proof.
  destruct parameters as [p|ps]; unfold filter_data_by_parameter;
    apply isin_filter.
Qed.

Lemma filter_comm {R : Type} (p q : R -> bool) (l : list R) :
  filter p (filter q l) = filter q (filter p l).
Proof.
  rewrite !filter_filter_and.
  apply filter_ext; intros x; apply andb_comm.
Qed.

Lemma filter_raises_with_bounds (parse_datetime : string -> option Datetime)
    {V : Type} (df : DataFrame V) (start_date end_date : DateLike) (e : Exn) :
  date_bounds parse_datetime start_date end_date = Raise e ->
  filter_data_by_date_range parse_datetime df start_date end_date = Raise e.
Proof. intros H; rewrite date_range_as_test, H; reflexivity. Qed.

(** X1.  A bound that is text which does not parse makes the date-range
    filter raise the parser's error for that text, whatever the table: for
    the start text when the start does not parse, for the end text when the
    start converts and the end does not. *)
Theorem date_range_raises_on_unparsed_bound
    (parse_datetime : string -> option Datetime) {V : Type}
    (df : DataFrame V) :
  (forall a end_date,
      parse_datetime a = None ->
      filter_data_by_date_range parse_datetime df (PyStr a) end_date
      = Raise (ParserError a) /\
      filter_data_by_date_range parse_datetime df (PyStrTz a) end_date
      = Raise (ParserError a)) /\
  (forall start_date t b,
      to_datetime parse_datetime start_date = Ok t ->
      parse_datetime b = None ->
      filter_data_by_date_range parse_datetime df start_date (PyStr b)
      = Raise (ParserError b) /\
      filter_data_by_date_range parse_datetime df start_date (PyStrTz b)
      = Raise (ParserError b)).
Proof.
  split.
  - intros a end_date Ha; split; apply filter_raises_with_bounds;
      unfold date_bounds; simpl; rewrite Ha; reflexivity.
  - intros start_date t b Ht Hb; split; apply filter_raises_with_bounds;
      unfold date_bounds; rewrite ensure_datetime_eq, Ht; simpl;
      rewrite Hb; reflexivity.
Qed.

Lemma in_date_range_dated {V : Type} (s e : Datetime) (r : Row V) :
  in_date_range s e r = true ->
  exists d lo hi, date r = Stamp d /\ s = Stamp lo /\ e = Stamp hi /\
                  lo <= d < hi + ns_per_day.
Proof.
  unfold in_date_range, dt_ge, dt_lt, dt_add, Timedelta_days.
  rewrite Z.mul_1_l.
  destruct (date r) as [|d], s as [|lo], e as [|hi];
    rewrite ?andb_false_r; try discriminate.
  rewrite andb_true_iff, Z.leb_le, Z.ltb_lt.
  intros H; exists d, lo, hi; auto.
Qed.

(** X2.  A row without a date ([NaT]) is never returned by the date-range
    filter, and when a bound converts to [NaT] the result is the empty table,
    not an error. *)
Theorem date_range_never_returns_undated
    (parse_datetime : string -> option Datetime) {V : Type}
    (df out : DataFrame V) (start_date end_date : DateLike) :
  filter_data_by_date_range parse_datetime df start_date end_date = Ok out ->
  Forall (fun r => date r <> NaT) out /\
  (to_datetime parse_datetime start_date = Ok NaT \/
   to_datetime parse_datetime end_date = Ok NaT -> out = []).
Proof.
  rewrite date_range_as_test.
  destruct (date_bounds parse_datetime start_date end_date) as [[s e]|] eqn:Hb;
    [|discriminate].
  apply date_bounds_Ok in Hb; destruct Hb as [Hs He].
  cbn [bind fst snd]; intros H; injection H as <-.
  split.
  - apply Forall_forall; intros r Hr.
    apply filter_In in Hr; destruct Hr as [_ Hr].
    apply in_date_range_dated in Hr.
    destruct Hr as (d & _ & _ & Hd & _); congruence.
  - intros Hnat.
    apply filter_none; intros r _.
    destruct (in_date_range s e r) eqn:Hr; [|reflexivity].
    apply in_date_range_dated in Hr.
    destruct Hr as (_ & lo & hi & _ & Hs' & He' & _).
    rewrite Hs, He in Hnat.
    destruct Hnat as [H|H]; injection H as ->; discriminate.
Qed.

(** X3.  Each filter tests every row on its own: the filter of two tables
    put end to end is the two filtered tables put end to end. *)
Theorem filters_distribute_over_concatenation {V : Type}
    (df1 df2 : DataFrame V) :
  (forall parse_datetime start_date end_date,
      filter_data_by_date_range parse_datetime (df1 ++ df2) start_date end_date
      = (a <- filter_data_by_date_range parse_datetime df1 start_date end_date ;;
         b <- filter_data_by_date_range parse_datetime df2 start_date end_date ;;
         Ok (a ++ b))) /\
  (forall locations,
      filter_data_by_location (df1 ++ df2) locations
      = filter_data_by_location df1 locations
        ++ filter_data_by_location df2 locations) /\
  (forall parameters,
      filter_data_by_parameter (df1 ++ df2) parameters
      = filter_data_by_parameter df1 parameters
        ++ filter_data_by_parameter df2 parameters).
Proof.
  split; [|split].
  - intros parse_datetime start_date end_date.
    rewrite !date_range_as_test.
    destruct (date_bounds parse_datetime start_date end_date) as [b|];
      [|reflexivity].
    cbn [bind]; rewrite filter_app; reflexivity.
  - intros locations; rewrite !location_filter_as_test; apply filter_app.
  - intros parameters; rewrite !parameter_filter_as_test; apply filter_app.
Qed.

(** X4.  The three filters can be applied in any order: location and
    parameter filters commute, and each commutes with the date-range
    filter (which raises the same error in either order). *)
Theorem filters_commute {V : Type} (df : DataFrame V)
    (locations : option (list string)) (parameters : ParamSel) :
  filter_data_by_location (filter_data_by_parameter df parameters) locations
  = filter_data_by_parameter (filter_data_by_location df locations) parameters /\
  (forall parse_datetime start_date end_date,
      (out <- filter_data_by_date_range parse_datetime df start_date end_date ;;
       Ok (filter_data_by_location out locations))
      = filter_data_by_date_range parse_datetime
          (filter_data_by_location df locations) start_date end_date) /\
  (forall parse_datetime start_date end_date,
      (out <- filter_data_by_date_range parse_datetime df start_date end_date ;;
       Ok (filter_data_by_parameter out parameters))
      = filter_data_by_date_range parse_datetime
          (filter_data_by_parameter df parameters) start_date end_date).
Proof.
  split; [|split].
  - rewrite !location_filter_as_test, !parameter_filter_as_test.
    apply filter_comm.
  - intros parse_datetime start_date end_date.
    rewrite !date_range_as_test.
    destruct (date_bounds parse_datetime start_date end_date) as [b|];
      [|reflexivity].
    cbn [bind]; rewrite !location_filter_as_test, filter_comm; reflexivity.
  - intros parse_datetime start_date end_date.
    rewrite !date_range_as_test.
    destruct (date_bounds parse_datetime start_date end_date) as [b|];
      [|reflexivity].
    cbn [bind]; rewrite !parameter_filter_as_test, filter_comm; reflexivity.
Qed.

Lemma label_in_same_elements (c : Label) (xs ys : list string) :
  (forall s, In s xs <-> In s ys) -> label_in c xs = label_in c ys.
Proof.
  intros Hsame.
  apply eq_true_iff_eq; rewrite !label_in_spec.
  split; intros (s & Hs & Hin); exists s; split; auto; apply Hsame; exact Hin.
Qed.

(** X5.  A selection acts as a set: two lists of locations, or of
    parameters, with the same elements select the same rows, whatever the
    order and the repetitions in the lists. *)
Theorem selections_act_as_sets {V : Type} (df : DataFrame V)
    (xs ys : list string) :
  (forall s, In s xs <-> In s ys) ->
  filter_data_by_location df (Some xs) = filter_data_by_location df (Some ys) /\
  filter_data_by_parameter df (ManyParams xs)
  = filter_data_by_parameter df (ManyParams ys).
Proof.
  intros Hsame; split.
  - rewrite !location_filter_as_test.
    destruct xs as [|x xs], ys as [|y ys]; simpl.
    + reflexivity.
    + destruct (proj2 (Hsame y) (or_introl eq_refl)).
    + destruct (proj1 (Hsame x) (or_introl eq_refl)).
    + apply filter_ext; intros r.
      exact (label_in_same_elements (location r) (x :: xs) (y :: ys) Hsame).
  - rewrite !parameter_filter_as_test.
    apply filter_ext; intros r.
    exact (label_in_same_elements (parameter r) xs ys Hsame).
Qed.

(** X6.  Filtering by one list of parameters and then by another keeps the
    rows whose parameter is in both lists: the same rows as one filter by
    the parameters the two lists share. *)
Theorem parameter_filters_intersect {V : Type} (df : DataFrame V)
    (ps1 ps2 : list string) :
  filter_data_by_parameter
    (filter_data_by_parameter df (ManyParams ps1)) (ManyParams ps2)
  = filter_data_by_parameter df
      (ManyParams (filter (fun p => existsb (String.eqb p) ps2) ps1)) /\
  forall r,
    In r (filter_data_by_parameter
            (filter_data_by_parameter df (ManyParams ps1)) (ManyParams ps2)) <->
    In r df /\ exists p, parameter r = Some p /\ In p ps1 /\ In p ps2.
Proof.
  assert (Hboth : forall r : Row V,
             label_in (parameter r) ps1 && label_in (parameter r) ps2 = true <->
             exists p, parameter r = Some p /\ In p ps1 /\ In p ps2).
  { intros r; rewrite andb_true_iff, !label_in_spec; split.
    - intros [(p & Hp & H1) (p' & Hp' & H2)].
      exists p; repeat split; auto; congruence.
    - intros (p & Hp & H1 & H2); split; exists p; auto. }
  split.
  - rewrite !parameter_filter_as_test, filter_filter_and.
    apply filter_ext; intros r; cbn [keeps_parameter].
    apply eq_true_iff_eq; rewrite Hboth, label_in_spec.
    split; intros (p & Hp & H).
    + exists p; split; [exact Hp|].
      apply filter_In; split; [tauto|].
      apply existsb_exists; exists p; split; [tauto | apply String.eqb_refl].
    + apply filter_In in H; destruct H as [H1 H2].
      apply existsb_exists in H2; destruct H2 as (q & Hq & Heq).
      apply String.eqb_eq in Heq; subst q.
      exists p; auto.
  - intros r.
    rewrite !parameter_filter_as_test, filter_filter_and, filter_In.
    cbn [keeps_parameter]; rewrite Hboth; reflexivity.
Qed.

(* ------------------------------------------------------------------ *)
(** ** Further properties: the loader *)

Lemma mapM_In {A B : Type} (f : A -> Result B) (l : list A) (out : list B) (a : A) :
  mapM f l = Ok out -> In a l -> exists b, f a = Ok b /\ In b out.
Proof.
  revert out; induction l as [|x l IH]; intros out Hout Hin; [destruct Hin|].
  simpl in Hout.
  destruct (f x) as [y|] eqn:Hx; [|discriminate].
  destruct (mapM f l) as [ys|] eqn:Hl; [|discriminate].
  injection Hout as <-.
  destruct Hin as [<-|Hin].
  - exists y; split; [exact Hx | left; reflexivity].
  - destruct (IH ys eq_refl Hin) as (b & Hb & Hin').
    exists b; split; [exact Hb | right; exact Hin'].
Qed.

Lemma mapM_raises_at_first {A B : Type} (f : A -> Result B)
    (before after : list A) (c : A) (e : Exn) :
  (forall a, In a before -> exists b, f a = Ok b) ->
  f c = Raise e ->
  mapM f (before ++ c :: after) = Raise e.
Proof.
  intros Hbefore Hc.
  induction before as [|a before IH]; simpl.
  - rewrite Hc; reflexivity.
  - destruct (Hbefore a (or_introl eq_refl)) as [b Hb]; rewrite Hb; simpl.
    rewrite IH; [reflexivity|].
    intros a' Hin; apply Hbefore; right; exact Hin.
Qed.

(** X7.  One date that does not parse fails the whole load: the loader
    raises the parser's error for the first such date in row order, also
    when that row has a missing value and would have been dropped. *)
Theorem load_raises_on_first_unparsed_date
    (parse_datetime : string -> option Datetime)
    (before after : list CsvRow) (c : CsvRow) (s : string) :
  (forall c' s', In c' before -> csv_date c' = Some s' ->
                 parse_datetime s' <> None) ->
  csv_date c = Some s ->
  parse_datetime s = None ->
  load_and_process_data parse_datetime (before ++ c :: after)
  = Raise (ParserError s).
Proof.
  intros Hbefore Hdate Hnone.
  unfold load_and_process_data.
  rewrite (mapM_raises_at_first _ before after c (ParserError s));
    [reflexivity | |].
  - intros a Hin.
    destruct (convert_date_total parse_datetime a) as (r & Hr & _).
    + intros s'; apply Hbefore; exact Hin.
    + exists r; exact Hr.
  - unfold convert_date, to_datetime_cell.
    rewrite Hdate; simpl; rewrite Hnone; reflexivity.
Qed.

(** X8.  A row whose date cell is empty is not an error and is not dropped:
    when its value, lat and lon are present it is loaded with the date
    [NaT] and its other cells unchanged. *)
Theorem load_keeps_row_without_date
    (parse_datetime : string -> option Datetime)
    (csv : list CsvRow) (df : DataFrame Field) (c : CsvRow) :
  load_and_process_data parse_datetime csv = Ok df ->
  In c csv ->
  csv_date c = None ->
  csv_missing c = false ->
  In (mkRow NaT (csv_location c) (csv_parameter c)
            (csv_value c) (csv_lat c) (csv_lon c)) df.
Proof.
  intros Hload Hin Hdate Hfull.
  unfold load_and_process_data in Hload.
  destruct (mapM (convert_date parse_datetime) csv) as [full|] eqn:Hfullm;
    [|discriminate].
  injection Hload as <-.
  destruct (mapM_In _ _ _ c Hfullm Hin) as (r & Hr & Hrin).
  unfold convert_date, to_datetime_cell in Hr; rewrite Hdate in Hr.
  injection Hr as <-.
  apply filter_In; split; [exact Hrin|].
  unfold csv_missing in Hfull; apply negb_false_iff in Hfull; exact Hfull.
Qed.

(** X9.  The loader changes no cell other than the date and keeps the row
    order: the location, parameter, value, lat and lon cells of the table are
    those of the rows of the file that have value, lat and lon, in the order
    of the file. *)
Theorem load_keeps_cells_and_order
    (parse_datetime : string -> option Datetime)
    (csv : list CsvRow) (df : DataFrame Field) :
  load_and_process_data parse_datetime csv = Ok df ->
  map (fun r => (location r, parameter r, value r, lat r, lon r)) df
  = map (fun c => (csv_location c, csv_parameter c,
                   csv_value c, csv_lat c, csv_lon c))
        (filter (fun c => negb (csv_missing c)) csv).
Proof.
  unfold load_and_process_data.
  destruct (mapM (convert_date parse_datetime) csv) as [full|] eqn:Hfull;
    [|discriminate].
  intros H; injection H as <-.
  revert full Hfull; induction csv as [|c csv IH]; intros full Hfull.
  - injection Hfull as <-; reflexivity.
  - simpl in Hfull.
    destruct (convert_date parse_datetime c) as [r|] eqn:Hc; [|discriminate].
    destruct (mapM (convert_date parse_datetime) csv) as [rest|]; [|discriminate].
    injection Hfull as <-.
    unfold convert_date in Hc.
    destruct (to_datetime_cell parse_datetime (csv_date c)) as [d|];
      [|discriminate].
    injection Hc as <-.
    unfold dropna_value_lat_lon in *; simpl.
    unfold complete at 1, csv_missing at 1; simpl.
    rewrite negb_involutive.
    destruct (notna (csv_value c) && notna (csv_lat c) && notna (csv_lon c));
      simpl; rewrite (IH rest eq_refl); reflexivity.
Qed.

(* ------------------------------------------------------------------ *)
(** ** Further properties: the time series *)

Lemma key_lt_spec (a b : GroupKey) :
  key_lt a b <->
  fst a < fst b \/ (fst a = fst b /\ String.compare (snd a) (snd b) = Lt).
Proof.
  destruct a as [d1 l1], b as [d2 l2]; unfold key_lt, key_compare; simpl.
  destruct (d1 ?= d2) eqn:Hc.
  - apply Z.compare_eq in Hc; subst; split; [auto | intros [H|[_ H]]; [lia | exact H]].
  - rewrite Z.compare_lt_iff in Hc; split; [auto | reflexivity].
  - rewrite Z.compare_gt_iff in Hc.
    split; [discriminate | intros [H|[H _]]; lia].
Qed.

Lemma StronglySorted_map {A B : Type} (R : A -> A -> Prop) (S : B -> B -> Prop)
    (f : A -> B) (l : list A) :
  (forall x y, R x y -> S (f x) (f y)) ->
  StronglySorted R l -> StronglySorted S (map f l).
Proof.
  intros Hf; induction 1 as [|x l Hs IH Hall]; simpl; constructor; [exact IH|].
  apply Forall_forall; intros y Hy.
  apply in_map_iff in Hy; destruct Hy as (z & <- & Hz).
  rewrite Forall_forall in Hall; auto.
Qed.

Lemma StronglySorted_filter {A : Type} (R : A -> A -> Prop) (p : A -> bool)
    (l : list A) :
  StronglySorted R l -> StronglySorted R (filter p l).
Proof.
  induction 1 as [|x l Hs IH Hall]; simpl; [constructor|].
  destruct (p x); [|exact IH].
  constructor; [exact IH|].
  apply Forall_forall; intros y Hy.
  apply filter_In in Hy; rewrite Forall_forall in Hall; apply Hall; tauto.
Qed.

(** Two increasing lists of keys with the same elements are the same list. *)
Lemma sorted_keys_ext (l1 : list GroupKey) :
  forall l2,
    StronglySorted key_lt l1 -> StronglySorted key_lt l2 ->
    (forall k, In k l1 <-> In k l2) -> l1 = l2.
Proof.
  induction l1 as [|a l1 IH]; intros [|b l2] H1 H2 Hsame.
  - reflexivity.
  - destruct (proj2 (Hsame b) (or_introl eq_refl)).
  - destruct (proj1 (Hsame a) (or_introl eq_refl)).
  - inversion H1 as [|? ? Hs1 Ha]; inversion H2 as [|? ? Hs2 Hb]; subst.
    rewrite Forall_forall in Ha, Hb.
    assert (Hab : a = b).
    { destruct (proj1 (Hsame a) (or_introl eq_refl)) as [Heq|Hin]; [auto|].
      destruct (proj2 (Hsame b) (or_introl eq_refl)) as [Heq|Hin']; [auto|].
      elim (KeyOrder.lt_irrefl a).
      exact (KeyOrder.lt_trans _ _ _ (Ha b Hin') (Hb a Hin)). }
    subst b; f_equal.
    apply IH; [assumption | assumption |].
    intros k; split; intros Hk.
    + destruct (proj1 (Hsame k) (or_intror Hk)) as [<-|Hin]; [|exact Hin].
      elim (KeyOrder.lt_irrefl a (Ha a Hk)).
    + destruct (proj2 (Hsame k) (or_intror Hk)) as [<-|Hin]; [|exact Hin].
      elim (KeyOrder.lt_irrefl a (Hb a Hk)).
Qed.

(** X10.  The rows of the time series come in increasing order of date and,
    within a date, of location. *)
Theorem time_series_is_sorted (df : DataFrame Float64) (param freq : string) :
  StronglySorted series_before (aggregate_data_for_time_series df param freq).
Proof.
  unfold aggregate_data_for_time_series, groupby_date_location_mean; cbv zeta.
  apply (StronglySorted_map key_lt); [|apply group_keys_sorted].
  intros [d1 l1] [d2 l2] Hlt.
  apply key_lt_spec in Hlt; exact Hlt.
Qed.

Lemma label_eqb_in (c : Label) (p : string) (ps : list string) :
  In p ps -> label_in c ps && label_eqb c p = label_eqb c p.
Proof.
  intros Hin; destruct c as [s|]; simpl; [|reflexivity].
  destruct (String.eqb_spec s p) as [->|]; [|apply andb_false_r].
  rewrite andb_true_r.
  apply existsb_exists; exists p; split; [exact Hin | apply String.eqb_refl].
Qed.

Lemma label_eqb_not_in (c : Label) (p : string) (ps : list string) :
  ~ In p ps -> label_in c ps && label_eqb c p = false.
Proof.
  intros Hnot; destruct c as [s|]; simpl; [|reflexivity].
  destruct (String.eqb_spec s p) as [->|]; [|apply andb_false_r].
  rewrite andb_true_r.
  destruct (existsb (String.eqb p) ps) eqn:He; [|reflexivity].
  apply existsb_exists in He; destruct He as (x & Hx & Heq).
  apply String.eqb_eq in Heq; subst x; contradiction.
Qed.

Lemma select_after_parameter_filter (df : DataFrame Float64)
    (p : string) (ps : list string) :
  In p ps ->
  getitem_mask (filter_data_by_parameter df (ManyParams ps))
    (series_eq (column parameter (filter_data_by_parameter df (ManyParams ps))) p)
  = getitem_mask df (series_eq (column parameter df) p).
Proof.
  intros Hin.
  rewrite !series_eq_filter, parameter_filter_many, filter_filter_and.
  apply filter_ext; intros r; apply label_eqb_in; exact Hin.
Qed.

Lemma select_after_other_parameters (df : DataFrame Float64)
    (p : string) (ps : list string) :
  ~ In p ps ->
  getitem_mask (filter_data_by_parameter df (ManyParams ps))
    (series_eq (column parameter (filter_data_by_parameter df (ManyParams ps))) p)
  = [].
Proof.
  intros Hnot.
  rewrite !series_eq_filter, parameter_filter_many, filter_filter_and.
  apply filter_none; intros r _; apply label_eqb_not_in; exact Hnot.
Qed.

(** X11.  Filtering the table by a selection of parameters does not change
    the time series of a parameter in the selection, and leaves an empty
    time series for a parameter outside the selection. *)
Theorem time_series_after_parameter_filter
    (df : DataFrame Float64) (p freq : string) (ps : list string) :
  (In p ps ->
   aggregate_data_for_time_series
     (filter_data_by_parameter df (ManyParams ps)) p freq
   = aggregate_data_for_time_series df p freq) /\
  (~ In p ps ->
   aggregate_data_for_time_series
     (filter_data_by_parameter df (ManyParams ps)) p freq = []) /\
  aggregate_data_for_time_series
    (filter_data_by_parameter df (OneParam p)) p freq
  = aggregate_data_for_time_series df p freq.
Proof.
  unfold aggregate_data_for_time_series; cbv zeta.
  split; [|split].
  - intros Hin; rewrite select_after_parameter_filter; auto.
  - intros Hnot; rewrite select_after_other_parameters; auto.
  - replace (filter_data_by_parameter df (OneParam p))
      with (filter_data_by_parameter df (ManyParams [p])) by reflexivity.
    rewrite select_after_parameter_filter; [reflexivity | left; reflexivity].
Qed.

Lemma time_series_row_value (df : DataFrame Float64) (param freq : string)
    (o : SeriesRow) (d : Z) (l : string) :
  In o (aggregate_data_for_time_series df param freq) ->
  series_key o = (Stamp d, Some l) ->
  ts_value o = nanmean (map value (filter (measures param d l) df)).
Proof.
  unfold aggregate_data_for_time_series, groupby_date_location_mean; cbv zeta.
  rewrite series_eq_filter.
  intros Ho Hkey.
  apply in_map_iff in Ho; destruct Ho as (k & <- & _).
  apply (stamp_key_injective k (d, l)) in Hkey; subst k.
  cbn [ts_value]; unfold column.
  rewrite filter_filter_and.
  rewrite (filter_ext _ (measures param d l)
             (fun r => in_group_measures param d l r)).
  reflexivity.
Qed.

Lemma in_group_key {V : Type} (k : GroupKey) (r : Row V) :
  in_group k r = true <-> group_key r = Some k.
Proof.
  unfold in_group.
  destruct (group_key r) as [k'|]; [|split; discriminate].
  rewrite KeyOrder.eqb_eq; split; [intros ->; reflexivity | intros H; injection H; auto].
Qed.

(** A row test that only reads the group key can be applied before the
    grouping or to the grouped rows. *)
Lemma groupby_mean_filter (q : Row Float64 -> bool) (q' : SeriesRow -> bool)
    (df : DataFrame Float64) :
  (forall r k v, group_key r = Some k ->
                 q r = q' (mkSeriesRow (Stamp (fst k)) (Some (snd k)) v)) ->
  groupby_date_location_mean (filter q df)
  = filter q' (groupby_date_location_mean df).
Proof.
  intros Hq.
  unfold groupby_date_location_mean.
  rewrite filter_map_test.
  set (kq := fun k : GroupKey =>
               q' (mkSeriesRow (Stamp (fst k)) (Some (snd k))
                     (nanmean (column value (filter (in_group k) df))))).
  assert (Hkeys : group_keys (filter q df) = filter kq (group_keys df)).
  { apply sorted_keys_ext.
    - apply group_keys_sorted.
    - apply StronglySorted_filter, group_keys_sorted.
    - intros k; rewrite filter_In, !group_keys_In; split.
      + intros (r & Hr & Hk).
        apply filter_In in Hr; destruct Hr as [Hr Hqr].
        split; [exists r; auto|].
        unfold kq; erewrite <- Hq by exact Hk; exact Hqr.
      + intros [(r & Hr & Hk) Hkq].
        exists r; split; [|exact Hk].
        apply filter_In; split; [exact Hr|].
        unfold kq in Hkq; erewrite Hq by exact Hk; exact Hkq. }
  rewrite Hkeys.
  apply map_ext_in; intros k Hk.
  apply filter_In in Hk; destruct Hk as [_ Hkq].
  do 2 f_equal.
  rewrite filter_filter_and; unfold column; f_equal.
  apply filter_ext_in; intros r _.
  destruct (in_group k r) eqn:Hin; [|apply andb_false_r].
  apply in_group_key in Hin.
  unfold kq in Hkq; erewrite Hq by exact Hin; rewrite Hkq; reflexivity.
Qed.

Lemma select_parameter_comm (q : Row Float64 -> bool) (df : DataFrame Float64)
    (p : string) :
  getitem_mask (filter q df) (series_eq (column parameter (filter q df)) p)
  = filter q (getitem_mask df (series_eq (column parameter df) p)).
Proof. rewrite !series_eq_filter; apply filter_comm. Qed.

(** X13.  The location filter can be applied before the time-series
    aggregation or after it: the time series of the filtered table is the
    time series of the table, restricted to the selected locations. *)
Theorem time_series_after_location_filter
    (df : DataFrame Float64) (locations : option (list string))
    (param freq : string) :
  aggregate_data_for_time_series
    (filter_data_by_location df locations) param freq
  = filter (series_at_locations locations)
           (aggregate_data_for_time_series df param freq).
Proof.
  unfold aggregate_data_for_time_series; cbv zeta.
  rewrite location_filter_as_test, select_parameter_comm.
  apply groupby_mean_filter.
  intros r k v Hk.
  destruct k as [d l]; apply group_key_Some in Hk; destruct Hk as [_ Hl].
  unfold keeps_location, series_at_locations; cbn [ts_location snd].
  rewrite Hl; reflexivity.
Qed.

(** X14.  The date-range filter can be applied before the time-series
    aggregation or after it: when the bounds convert, the time series of the
    filtered table is the time series of the table, restricted to the dates
    of the range. *)
Theorem time_series_after_date_range
    (parse_datetime : string -> option Datetime)
    (df out : DataFrame Float64) (start_date end_date : DateLike)
    (s e : Datetime) (param freq : string) :
  to_datetime parse_datetime start_date = Ok s ->
  to_datetime parse_datetime end_date = Ok e ->
  filter_data_by_date_range parse_datetime df start_date end_date = Ok out ->
  aggregate_data_for_time_series out param freq
  = filter (series_in_date_range s e)
           (aggregate_data_for_time_series df param freq).
Proof.
  intros Hs He.
  rewrite date_range_as_test.
  destruct (date_bounds parse_datetime start_date end_date) as [[s' e']|] eqn:Hb;
    [|discriminate].
  apply date_bounds_Ok in Hb; destruct Hb as [Hs' He'].
  rewrite Hs in Hs'; rewrite He in He'.
  injection Hs' as <-; injection He' as <-.
  cbn [bind fst snd]; intros H; injection H as <-.
  unfold aggregate_data_for_time_series; cbv zeta.
  rewrite select_parameter_comm.
  apply groupby_mean_filter.
  intros r k v Hk.
  destruct k as [d l]; apply group_key_Some in Hk; destruct Hk as [Hd _].
  unfold in_date_range, series_in_date_range; cbn [ts_date fst].
  rewrite Hd; reflexivity.
Qed.

(* ------------------------------------------------------------------ *)
(** ** Further properties: the comparison of locations *)

Module LabelOrder.

Lemma gt_lt (a b : string) : String.compare a b = Gt -> label_lt b a.
Proof.
  unfold label_lt; rewrite (String.compare_antisym b a).
  intros ->; reflexivity.
Qed.

Lemma irrefl (a : string) : ~ label_lt a a.
Proof.
  unfold label_lt; rewrite KeyOrder.string_compare_refl; discriminate.
Qed.

Lemma trans (a b c : string) : label_lt a b -> label_lt b c -> label_lt a c.
Proof. apply KeyOrder.string_compare_lt_trans. Qed.

End LabelOrder.

Lemma insert_label_In (l x : string) (ls : list string) :
  In x (insert_label l ls) <-> x = l \/ In x ls.
Proof.
  induction ls as [|l' ls IH]; simpl.
  - intuition.
  - destruct (String.compare l l') eqn:Hc; simpl.
    + apply String.compare_eq_iff in Hc; subst l'; intuition.
    + intuition.
    + rewrite IH; intuition.
Qed.

Lemma insert_label_sorted (l : string) (ls : list string) :
  StronglySorted label_lt ls -> StronglySorted label_lt (insert_label l ls).
Proof.
  induction 1 as [|l' ls Hs IH Hall]; simpl.
  - constructor; constructor.
  - destruct (String.compare l l') eqn:Hc.
    + constructor; assumption.
    + constructor; [constructor; assumption|].
      constructor; [exact Hc|].
      eapply Forall_impl; [|exact Hall].
      intros x Hx; exact (LabelOrder.trans _ _ _ Hc Hx).
    + constructor; [exact IH|].
      apply Forall_forall; intros x Hx.
      apply insert_label_In in Hx; destruct Hx as [->|Hx].
      * apply LabelOrder.gt_lt; exact Hc.
      * rewrite Forall_forall in Hall; auto.
Qed.

Lemma location_keys_sorted {V : Type} (df : DataFrame V) :
  StronglySorted label_lt (location_keys df).
Proof.
  induction df as [|r df IH]; simpl; [constructor|].
  destruct (location r); [apply insert_label_sorted|]; exact IH.
Qed.

Lemma location_keys_In {V : Type} (df : DataFrame V) (l : string) :
  In l (location_keys df) <-> exists r, In r df /\ location r = Some l.
Proof.
  induction df as [|r df IH]; simpl.
  - split; [intros [] | intros (r & [] & _)].
  - destruct (location r) as [l'|] eqn:Hl.
    + rewrite insert_label_In, IH; split.
      * intros [->|(r' & Hin & Hr')]; [exists r | exists r']; auto.
      * intros (r' & [<-|Hin] & Hr').
        -- left; congruence.
        -- right; exists r'; auto.
    + rewrite IH; split.
      * intros (r' & Hin & Hr'); exists r'; auto.
      * intros (r' & [<-|Hin] & Hr'); [congruence | exists r'; auto].
Qed.

Lemma sorted_labels_NoDup (ls : list string) :
  StronglySorted label_lt ls -> NoDup ls.
Proof.
  induction 1 as [|l ls Hs IH Hall]; constructor; [|exact IH].
  intros Hin; rewrite Forall_forall in Hall.
  exact (LabelOrder.irrefl l (Hall l Hin)).
Qed.

Lemma comparison_locations (df : DataFrame Float64) (param : string) :
  map cmp_location (aggregate_data_for_comparison df param)
  = map Some
      (location_keys (filter (fun r => label_eqb (parameter r) param) df)).
Proof.
  unfold aggregate_data_for_comparison, groupby_location_agg; cbv zeta.
  rewrite series_eq_filter, map_map; reflexivity.
Qed.

Lemma comparison_has_location (df : DataFrame Float64) (param l : string) :
  In (Some l) (map cmp_location (aggregate_data_for_comparison df param)) <->
  exists r, In r df /\ parameter r = Some param /\ location r = Some l.
Proof.
  rewrite comparison_locations, in_map_iff; split.
  - intros (x & Hx & Hin); injection Hx as ->.
    apply location_keys_In in Hin; destruct Hin as (r & Hr & Hl).
    apply filter_In in Hr; destruct Hr as [Hr Hp].
    apply label_eqb_spec in Hp; exists r; auto.
  - intros (r & Hr & Hp & Hl).
    exists l; split; [reflexivity|].
    apply location_keys_In; exists r; split; [|exact Hl].
    apply filter_In; split; [exact Hr | apply label_eqb_spec; exact Hp].
Qed.

(** X15.  The comparison has one row for every location at which the
    parameter has a row, no location twice and the locations in increasing
    order; a row without location is in no group. *)
Theorem comparison_one_row_per_location
    (df : DataFrame Float64) (param : string) :
  let out := aggregate_data_for_comparison df param in
  StronglySorted comparison_before out /\
  NoDup (map cmp_location out) /\
  (forall o, In o out -> exists l, cmp_location o = Some l) /\
  (forall l, In (Some l) (map cmp_location out) <->
             exists r, In r df /\ parameter r = Some param /\
                       location r = Some l).
Proof.
  intros out.
  split; [|split; [|split]].
  - unfold out, aggregate_data_for_comparison, groupby_location_agg; cbv zeta.
    apply (StronglySorted_map label_lt); [|apply location_keys_sorted].
    intros x y Hxy; exact Hxy.
  - unfold out; rewrite comparison_locations.
    apply NoDup_map_injective; [intros x y H; injection H; auto|].
    apply sorted_labels_NoDup, location_keys_sorted.
  - intros o Ho.
    unfold out, aggregate_data_for_comparison, groupby_location_agg in Ho.
    apply in_map_iff in Ho; destruct Ho as (l & <- & _).
    exists l; reflexivity.
  - intros l; apply comparison_has_location.
Qed.

Lemma comparison_row_stats (df : DataFrame Float64) (param l : string)
    (o : ComparisonRow) :
  In o (aggregate_data_for_comparison df param) ->
  cmp_location o = Some l ->
  cmp_mean o = nanmean (values_at param l df) /\
  cmp_min o = nanmin (values_at param l df) /\
  cmp_max o = nanmax (values_at param l df).
Proof.
  unfold aggregate_data_for_comparison, groupby_location_agg; cbv zeta.
  rewrite series_eq_filter.
  intros Ho Hl.
  apply in_map_iff in Ho; destruct Ho as (l' & <- & _).
  cbn [cmp_location] in Hl; injection Hl as ->.
  cbn [cmp_mean cmp_min cmp_max]; unfold values_at, column.
  rewrite filter_filter_and; auto.
Qed.

(** The order of the floats that are not NaN, from the specification of the
    primitive comparisons. *)
Module FloatOrder.

Import SpecFloat.

Local Abbreviation sf := FloatOps.Prim2SF.

Ltac compare_cases :=
  repeat match goal with
         | |- context [(?a ?= ?b)%Z] => destruct (Z.compare_spec a b)
         | |- context [PosDef.Pos.compare_cont Eq ?a ?b] =>
             change (PosDef.Pos.compare_cont Eq a b) with (Pos.compare a b);
             destruct (Pos.compare_spec a b)
         end.

Lemma SFcompare_refl (f : spec_float) :
  f <> S754_nan -> SFcompare f f = Some Eq.
Proof.
  destruct f as [s|s| |s m e]; simpl; intros H; try reflexivity.
  - destruct s; reflexivity.
  - congruence.
  - rewrite Z.compare_refl.
    change (PosDef.Pos.compare_cont Eq m m) with (Pos.compare m m).
    rewrite Pos.compare_refl; destruct s; reflexivity.
Qed.

Lemma SFcompare_antisym (f g : spec_float) :
  SFcompare g f = option_map CompOpp (SFcompare f g).
Proof.
  destruct f as [s|s| |s m e], g as [s'|s'| |s' m' e']; simpl;
    try reflexivity;
    repeat match goal with b : bool |- _ => destruct b end;
    try reflexivity.
  all: rewrite (Z.compare_antisym e' e);
    change (PosDef.Pos.compare_cont Eq m m') with (Pos.compare m m');
    change (PosDef.Pos.compare_cont Eq m' m) with (Pos.compare m' m);
    rewrite (Pos.compare_antisym m' m);
    destruct (e' ?= e); simpl; try reflexivity;
    destruct (m' ?= m)%positive; reflexivity.
Qed.

Lemma SFleb_trans (f g h : spec_float) :
  SFleb f g = true -> SFleb g h = true -> SFleb f h = true.
Proof.
  unfold SFleb.
  destruct f as [s|s| |s m e], g as [s'|s'| |s' m' e'],
           h as [s''|s''| |s'' m'' e'']; simpl;
    try discriminate; try reflexivity;
    repeat match goal with b : bool |- _ => destruct b end;
    simpl; try discriminate; try reflexivity.
  all: compare_cases; simpl; intros; subst;
    try discriminate; try reflexivity; try lia.
Qed.

Lemma isnan_false (x : PrimFloat.float) :
  PrimFloat.is_nan x = false <-> sf x <> S754_nan.
Proof.
  unfold PrimFloat.is_nan; rewrite FloatAxioms.eqb_spec; fold (sf x).
  unfold SFeqb; split.
  - intros H Hn; rewrite Hn in H; discriminate.
  - intros H; rewrite (SFcompare_refl _ H); reflexivity.
Qed.

Lemma leb_trans (x y z : PrimFloat.float) :
  PrimFloat.leb x y = true -> PrimFloat.leb y z = true -> PrimFloat.leb x z = true.
Proof. rewrite !FloatAxioms.leb_spec; apply SFleb_trans. Qed.

Lemma ltb_leb (x y : PrimFloat.float) :
  PrimFloat.ltb x y = true -> PrimFloat.leb x y = true.
Proof.
  rewrite FloatAxioms.ltb_spec, FloatAxioms.leb_spec; unfold SFltb, SFleb.
  destruct (SFcompare _ _) as [[| |]|]; try discriminate; reflexivity.
Qed.

Lemma SFcompare_defined (f g : spec_float) :
  f <> S754_nan -> g <> S754_nan -> exists c, SFcompare f g = Some c.
Proof.
  destruct f as [s|s| |s m e], g as [s'|s'| |s' m' e']; simpl; intros Hf Hg;
    try congruence; eexists; reflexivity.
Qed.

Lemma not_ltb_leb (x y : PrimFloat.float) :
  PrimFloat.is_nan x = false -> PrimFloat.is_nan y = false ->
  PrimFloat.ltb x y = false -> PrimFloat.leb y x = true.
Proof.
  rewrite !isnan_false, FloatAxioms.ltb_spec, FloatAxioms.leb_spec.
  fold (sf x) (sf y); unfold SFltb, SFleb.
  rewrite (SFcompare_antisym (sf x) (sf y)).
  intros Hx Hy.
  destruct (SFcompare_defined _ _ Hx Hy) as [c Hc]; rewrite Hc.
  destruct c; simpl; try discriminate; reflexivity.
Qed.

Lemma leb_refl (x : PrimFloat.float) :
  PrimFloat.is_nan x = false -> PrimFloat.leb x x = true.
Proof.
  rewrite isnan_false, FloatAxioms.leb_spec; fold (sf x); unfold SFleb.
  intros H; rewrite (SFcompare_refl _ H); reflexivity.
Qed.

Lemma infinity_least_upper (x : PrimFloat.float) :
  PrimFloat.is_nan x = false ->
  PrimFloat.leb PrimFloat.infinity x = true -> x = PrimFloat.infinity.
Proof.
  rewrite isnan_false, FloatAxioms.leb_spec; fold (sf x).
  change (FloatOps.Prim2SF PrimFloat.infinity) with (S754_infinity false).
  intros Hx H.
  rewrite <- (FloatAxioms.SF2Prim_Prim2SF x); fold (sf x).
  destruct (sf x) as [s|[|]| |[|] m e]; try congruence; try discriminate;
    reflexivity.
Qed.

Lemma neg_infinity_greatest_lower (x : PrimFloat.float) :
  PrimFloat.is_nan x = false ->
  PrimFloat.leb x PrimFloat.neg_infinity = true -> x = PrimFloat.neg_infinity.
Proof.
  rewrite isnan_false, FloatAxioms.leb_spec; fold (sf x).
  change (FloatOps.Prim2SF PrimFloat.neg_infinity) with (S754_infinity true).
  intros Hx H.
  rewrite <- (FloatAxioms.SF2Prim_Prim2SF x); fold (sf x).
  destruct (sf x) as [[|]|[|]| |[|] m e]; try congruence; try discriminate;
    reflexivity.
Qed.

End FloatOrder.

Lemma present_not_nan (vs : list Float64) :
  Forall (fun q => isnan q = false) (present vs).
Proof.
  apply Forall_forall; intros q Hq.
  apply filter_In in Hq; destruct Hq as [_ Hq].
  apply negb_true_iff; exact Hq.
Qed.

Lemma fold_min_spec (qs : list Float64) :
  Forall (fun q => isnan q = false) qs ->
  forall m, isnan m = false ->
    let r := fold_left (fun m v => if PrimFloat.ltb v m then v else m) qs m in
    (r = m \/ In r qs) /\
    PrimFloat.leb r m = true /\
    (forall q, In q qs -> PrimFloat.leb r q = true).
Proof.
  induction 1 as [|v qs Hv Hall IH]; intros m Hm; simpl.
  - split; [left; reflexivity|].
    split; [apply FloatOrder.leb_refl; exact Hm | intros q []].
  - destruct (PrimFloat.ltb v m) eqn:Hlt.
    + destruct (IH v Hv) as (Hin & Hle & Hrest).
      split; [destruct Hin as [Hin|Hin]; right; [left; symmetry | right]; exact Hin|].
      split.
      * eapply FloatOrder.leb_trans; [exact Hle|].
        apply FloatOrder.ltb_leb; exact Hlt.
      * intros q [<-|Hq]; [exact Hle | apply Hrest; exact Hq].
    + destruct (IH m Hm) as (Hin & Hle & Hrest).
      split; [destruct Hin as [Hin|Hin]; [left | right; right]; exact Hin|].
      split; [exact Hle|].
      intros q [<-|Hq]; [|apply Hrest; exact Hq].
      eapply FloatOrder.leb_trans; [exact Hle|].
      apply FloatOrder.not_ltb_leb; assumption.
Qed.

Lemma fold_max_spec (qs : list Float64) :
  Forall (fun q => isnan q = false) qs ->
  forall m, isnan m = false ->
    let r := fold_left (fun m v => if PrimFloat.ltb m v then v else m) qs m in
    (r = m \/ In r qs) /\
    PrimFloat.leb m r = true /\
    (forall q, In q qs -> PrimFloat.leb q r = true).
Proof.
  induction 1 as [|v qs Hv Hall IH]; intros m Hm; simpl.
  - split; [left; reflexivity|].
    split; [apply FloatOrder.leb_refl; exact Hm | intros q []].
  - destruct (PrimFloat.ltb m v) eqn:Hlt.
    + destruct (IH v Hv) as (Hin & Hle & Hrest).
      split; [destruct Hin as [Hin|Hin]; right; [left; symmetry | right]; exact Hin|].
      split.
      * eapply FloatOrder.leb_trans; [|exact Hle].
        apply FloatOrder.ltb_leb; exact Hlt.
      * intros q [<-|Hq]; [exact Hle | apply Hrest; exact Hq].
    + destruct (IH m Hm) as (Hin & Hle & Hrest).
      split; [destruct Hin as [Hin|Hin]; [left | right; right]; exact Hin|].
      split; [exact Hle|].
      intros q [<-|Hq]; [|apply Hrest; exact Hq].
      eapply FloatOrder.leb_trans; [|exact Hle].
      apply FloatOrder.not_ltb_leb; assumption.
Qed.

Lemma nanmin_spec (vs : list Float64) :
  present vs <> [] ->
  In (nanmin vs) (present vs) /\
  (forall q, In q (present vs) -> PrimFloat.leb (nanmin vs) q = true).
Proof.
  unfold nanmin; pose proof (present_not_nan vs) as Hall.
  destruct (present vs) as [|q0 qs]; [congruence|]; intros _.
  destruct (fold_min_spec (q0 :: qs) Hall PrimFloat.infinity eq_refl)
    as (Hin & _ & Hle).
  split; [|exact Hle].
  destruct Hin as [Hin|Hin]; [|exact Hin].
  left; rewrite Hin.
  apply FloatOrder.infinity_least_upper.
  - inversion Hall; assumption.
  - rewrite <- Hin; apply Hle; left; reflexivity.
Qed.

Lemma nanmax_spec (vs : list Float64) :
  present vs <> [] ->
  In (nanmax vs) (present vs) /\
  (forall q, In q (present vs) -> PrimFloat.leb q (nanmax vs) = true).
Proof.
  unfold nanmax; pose proof (present_not_nan vs) as Hall.
  destruct (present vs) as [|q0 qs]; [congruence|]; intros _.
  destruct (fold_max_spec (q0 :: qs) Hall PrimFloat.neg_infinity eq_refl)
    as (Hin & _ & Hle).
  split; [|exact Hle].
  destruct Hin as [Hin|Hin]; [|exact Hin].
  left; rewrite Hin.
  apply FloatOrder.neg_infinity_greatest_lower.
  - inversion Hall; assumption.
  - rewrite <- Hin; apply Hle; left; reflexivity.
Qed.

(** X16.  In a row of the comparison, min and max are measurements of the
    location that are not NaN, and every such measurement lies between them;
    they are NaN when the location has no measurement that is a number.
    The mean is the float64 mean of the same measurements. *)
Theorem comparison_statistics
    (df : DataFrame Float64) (param l : string) (o : ComparisonRow) :
  In o (aggregate_data_for_comparison df param) ->
  cmp_location o = Some l ->
  let qs := present (values_at param l df) in
  is_mean_of (cmp_mean o) (values_at param l df) /\
  (qs = [] -> cmp_min o = PrimFloat.nan /\ cmp_max o = PrimFloat.nan) /\
  (qs <> [] ->
   In (cmp_min o) qs /\ In (cmp_max o) qs /\
   isnan (cmp_min o) = false /\ isnan (cmp_max o) = false /\
   forall q, In q qs ->
             PrimFloat.leb (cmp_min o) q = true /\
             PrimFloat.leb q (cmp_max o) = true).
Proof.
  intros Ho Hl qs.
  destruct (comparison_row_stats df param l o Ho Hl) as (-> & -> & ->).
  split; [apply nanmean_spec|].
  split.
  - intros Hqs; unfold nanmin, nanmax; fold qs; rewrite Hqs; auto.
  - intros Hne.
    destruct (nanmin_spec (values_at param l df) Hne) as [Hmin Hmin_le].
    destruct (nanmax_spec (values_at param l df) Hne) as [Hmax Hmax_le].
    pose proof (present_not_nan (values_at param l df)) as Hall.
    rewrite Forall_forall in Hall.
    repeat split; auto.
Qed.




(* ------------------------------------------------------------------ *)
(** ** Further properties: the correlation join *)

Lemma flat_map_app_perm {A B : Type} (g h : A -> list B) (l : list A) :
  Permutation (flat_map (fun x => g x ++ h x) l) (flat_map g l ++ flat_map h l).
Proof.
  induction l as [|x l IH]; simpl; [constructor|].
  rewrite <- !app_assoc; apply Permutation_app_head.
  etransitivity; [apply Permutation_app_head; exact IH|].
  apply Permutation_app_swap_app.
Qed.

Lemma flat_map_singletons {A B : Type} (f : A -> B) (p : A -> bool) (l : list A) :
  flat_map (fun x => if p x then [f x] else []) l = map f (filter p l).
Proof.
  induction l as [|x l IH]; simpl; [reflexivity|].
  destruct (p x); simpl; rewrite IH; reflexivity.
Qed.

(** A join can be listed by its left rows or by its right rows: the same
    rows, each as many times. *)
Lemma join_exchange {A B C : Type} (f : A -> B -> C) (J : A -> B -> bool)
    (L : list A) (R : list B) :
  Permutation
    (flat_map (fun a => map (f a) (filter (J a) R)) L)
    (flat_map (fun b => map (fun a => f a b) (filter (fun a => J a b) L)) R).
Proof.
  induction L as [|a L IH]; simpl.
  - induction R as [|b R IHR]; simpl; [constructor | exact IHR].
  - etransitivity; [apply Permutation_app_head; exact IH|].
    rewrite <- (flat_map_singletons (f a) (J a) R).
    etransitivity; [symmetry; apply flat_map_app_perm|].
    apply Permutation_refl'.
    apply flat_map_ext; intros b.
    destruct (J a b); reflexivity.
Qed.

Lemma has_key_sym {V : Type} (r1 r2 : Row V) :
  has_key (date r1, location r1) r2 = has_key (date r2, location r2) r1.
Proof.
  apply eq_true_iff_eq; rewrite !has_key_spec; unfold row_key.
  split; intros H; symmetry; exact H.
Qed.

Lemma map_flat_map {A B C : Type} (g : B -> C) (f : A -> list B) (l : list A) :
  map g (flat_map f l) = flat_map (fun x => map g (f x)) l.
Proof.
  induction l as [|x l IH]; simpl; [reflexivity|].
  rewrite map_app, IH; reflexivity.
Qed.

(** X18.  Exchanging the two parameters of the correlation join exchanges
    the two value columns: the join of param2 with param1 has the rows of
    the join of param1 with param2 with their two values exchanged, each as
    many times, possibly in another order. *)
Theorem correlation_swaps_with_parameters
    (df : DataFrame Float64) (param1 param2 : string) :
  Permutation
    (map swap_values (records (prepare_correlation_data df param1 param2)))
    (records (prepare_correlation_data df param2 param1)) /\
  forall o,
    In o (records (prepare_correlation_data df param1 param2)) <->
    In (swap_values o) (records (prepare_correlation_data df param2 param1)).
Proof.
  assert (Hperm : Permutation
            (map swap_values
               (records (prepare_correlation_data df param1 param2)))
            (records (prepare_correlation_data df param2 param1))).
  { rewrite !correlation_records_list, map_flat_map.
    set (L := filter (fun r => label_eqb (parameter r) param1) df).
    set (R := filter (fun r => label_eqb (parameter r) param2) df).
    set (J := fun r1 r2 : Row Float64 => has_key (date r1, location r1) r2).
    set (f := fun r1 r2 : Row Float64 =>
                mkPairRow (date r2) (location r2) (value r2) (value r1)).
    transitivity (flat_map (fun a => map (f a) (filter (J a) R)) L).
    - apply Permutation_refl'.
      apply flat_map_ext; intros r1.
      unfold joined_with, rows_of, R; rewrite map_map, <- filter_filter_and.
      apply map_ext_in; intros r2 Hr2.
      apply filter_In in Hr2; destruct Hr2 as [_ Hk].
      apply has_key_spec in Hk; unfold row_key in Hk; injection Hk as Hd Hl.
      unfold f, swap_values; simpl; rewrite Hd, Hl; reflexivity.
    - etransitivity; [apply join_exchange|].
      apply Permutation_refl'.
      apply flat_map_ext; intros r2.
      unfold joined_with, rows_of, L; rewrite <- filter_filter_and.
      f_equal.
      apply filter_ext; intros r1; unfold J; apply has_key_sym. }
  split; [exact Hperm|].
  intros o; split; intros Ho.
  - apply (Permutation_in _ Hperm), in_map; exact Ho.
  - apply (Permutation_in _ (Permutation_sym Hperm)) in Ho.
    apply in_map_iff in Ho; destruct Ho as (o' & Heq & Ho').
    destruct o as [d l a b], o' as [d' l' a' b'].
    unfold swap_values in Heq; simpl in Heq.
    injection Heq as -> -> -> ->; exact Ho'.
Qed.

(** X19.  A (date, location) pair, both present, is in the correlation
    frame of two parameters exactly when it is in the time series of each
    of them. *)
Theorem correlation_keys_are_common_series_keys
    (df : DataFrame Float64) (param1 param2 freq : string)
    (d : Z) (l : string) :
  In (Stamp d, Some l)
     (map pair_key (records (prepare_correlation_data df param1 param2))) <->
  In (Stamp d, Some l)
     (map series_key (aggregate_data_for_time_series df param1 freq)) /\
  In (Stamp d, Some l)
     (map series_key (aggregate_data_for_time_series df param2 freq)).
Proof.
  rewrite !time_series_keys, in_map_iff; split.
  - intros (o & Hk & Ho).
    apply correlation_records in Ho.
    destruct Ho as (r1 & r2 & Hr1 & Hr2 & Hp1 & Hp2 & Hkey & ->).
    unfold pair_key in Hk; simpl in Hk; injection Hk as Hd Hl.
    unfold row_key in Hkey; injection Hkey as Hd' Hl'.
    split; [exists r1 | exists r2]; repeat split; auto; congruence.
  - intros [(r1 & Hr1 & Hp1 & Hd1 & Hl1) (r2 & Hr2 & Hp2 & Hd2 & Hl2)].
    exists (mkPairRow (date r1) (location r1) (value r1) (value r2)).
    split; [unfold pair_key; simpl; rewrite Hd1, Hl1; reflexivity|].
    apply correlation_records; exists r1, r2.
    repeat split; auto.
    unfold row_key; rewrite Hd1, Hl1, Hd2, Hl2; reflexivity.
Qed.

(** X20.  Filtering the table by a selection of parameters that holds both
    parameters does not change their correlation frame; when one of the two
    is outside the selection the frame has no rows. *)
Theorem correlation_after_parameter_filter
    (df : DataFrame Float64) (param1 param2 : string) (ps : list string) :
  (In param1 ps -> In param2 ps ->
   prepare_correlation_data
     (filter_data_by_parameter df (ManyParams ps)) param1 param2
   = prepare_correlation_data df param1 param2) /\
  (~ In param1 ps \/ ~ In param2 ps ->
   records (prepare_correlation_data
              (filter_data_by_parameter df (ManyParams ps)) param1 param2)
   = []).
Proof.
  unfold prepare_correlation_data; cbv zeta.
  split.
  - intros H1 H2; rewrite !select_after_parameter_filter; auto.
  - unfold merge_inner; cbn [records].
    intros [H|H]; rewrite (select_after_other_parameters df _ ps H).
    + reflexivity.
    + cbn [rename_and_select value_rows map filter].
      induction (map _ _) as [|a L IH]; [reflexivity | exact IH].
Qed.

Lemma NoDup_map_filter_coarser {A B C : Type} (f : A -> B) (g : A -> C)
    (p : A -> bool) (l : list A) :
  (forall x y, In x l -> In y l -> p x = true -> p y = true ->
               g x = g y -> f x = f y) ->
  NoDup (map f l) -> NoDup (map g (filter p l)).
Proof.
  induction l as [|x l IH]; intros Hfg Hnd; simpl; [constructor|].
  inversion Hnd as [|? ? Hx Hl]; subst.
  assert (IH' : NoDup (map g (filter p l))).
  { apply IH; [|exact Hl].
    intros a b Ha Hb; apply Hfg; right; assumption. }
  destruct (p x) eqn:Hp; [|exact IH'].
  simpl; constructor; [|exact IH'].
  intros Hin; apply in_map_iff in Hin; destruct Hin as (y & Hy & Hyin).
  apply filter_In in Hyin; destruct Hyin as [Hyin Hpy].
  apply Hx, in_map_iff; exists y; split; [|exact Hyin].
  apply Hfg; auto; [right; exact Hyin | left; reflexivity].
Qed.

Lemma merge_keys_NoDup (left right : ValueFrame) :
  NoDup (map fst (value_rows left)) ->
  NoDup (map fst (value_rows right)) ->
  NoDup (map pair_key (records (merge_inner left right))).
Proof.
  destruct left as [ll L], right as [lr R]; unfold merge_inner;
    cbn [records value_rows value_label].
  intros HL HR.
  induction L as [|a L IH]; simpl; [constructor|].
  inversion HL as [|? ? Ha HL']; subst.
  rewrite map_app; apply NoDup_app.
  - rewrite map_map.
    rewrite (map_ext_in _ fst).
    + apply (NoDup_map_filter_coarser fst fst); [auto | exact HR].
    + intros b Hb; apply filter_In in Hb; destruct Hb as [_ Hb].
      apply join_key_eqb_eq in Hb; unfold pair_key; simpl.
      rewrite <- Hb; destruct a as [[d l] v]; reflexivity.
  - apply IH; exact HL'.
  - intros k Hk1 Hk2.
    apply in_map_iff in Hk1; destruct Hk1 as (o & <- & Ho).
    apply in_map_iff in Ho; destruct Ho as (b & <- & Hb).
    apply in_map_iff in Hk2; destruct Hk2 as (o' & Hk & Ho').
    apply in_flat_map in Ho'; destruct Ho' as (a' & Ha' & Ho').
    apply in_map_iff in Ho'; destruct Ho' as (b' & <- & Hb').
    apply Ha, in_map_iff; exists a'; split; [|exact Ha'].
    unfold pair_key in Hk; simpl in Hk.
    destruct a as [[d l] v], a' as [[d' l'] v']; simpl in *; exact Hk.
Qed.

(** X21.  When no two rows of the table have the same parameter, date and
    location, the correlation frame has one row per (date, location) pair:
    no pair occurs twice. *)
Theorem correlation_one_row_per_pair
    (df : DataFrame Float64) (param1 param2 : string) :
  NoDup (map measurement_id df) ->
  NoDup (map pair_key (records (prepare_correlation_data df param1 param2))).
Proof.
  intros Hnd.
  unfold prepare_correlation_data; cbv zeta.
  assert (Hkeys : forall p,
             NoDup (map fst (value_rows
                      (rename_and_select
                         (getitem_mask df (series_eq (column parameter df) p))
                         p)))).
  { intros p; unfold rename_and_select; cbn [value_rows].
    rewrite series_eq_filter, map_map; cbn [fst].
    apply (NoDup_map_filter_coarser measurement_id); [|exact Hnd].
    intros x y _ _ Hx Hy Hk.
    apply label_eqb_spec in Hx, Hy.
    unfold measurement_id; injection Hk as -> ->; rewrite Hx, Hy; reflexivity. }
  apply merge_keys_NoDup; apply Hkeys.
Qed.

Lemma select_location_comm (df : DataFrame Float64)
    (locations : option (list string)) (p : string) :
  value_rows
    (rename_and_select
       (getitem_mask (filter_data_by_location df locations)
          (series_eq
             (column parameter (filter_data_by_location df locations)) p))
       p)
  = filter (fun a => pair_at_locations locations
                       (mkPairRow (fst (fst a)) (snd (fst a)) PrimFloat.nan PrimFloat.nan))
      (value_rows
         (rename_and_select
            (getitem_mask df (series_eq (column parameter df) p)) p)).
Proof.
  unfold rename_and_select; cbn [value_rows].
  rewrite location_filter_as_test, select_parameter_comm, filter_map_test.
  f_equal.
Qed.

(** X22.  The location filter can be applied before the correlation join or
    after it: the correlation frame of the filtered table has the columns of
    the correlation frame of the table, and its rows at the selected
    locations. *)
Theorem correlation_after_location_filter
    (df : DataFrame Float64) (locations : option (list string))
    (param1 param2 : string) :
  columns (prepare_correlation_data
             (filter_data_by_location df locations) param1 param2)
  = columns (prepare_correlation_data df param1 param2) /\
  records (prepare_correlation_data
             (filter_data_by_location df locations) param1 param2)
  = filter (pair_at_locations locations)
           (records (prepare_correlation_data df param1 param2)).
Proof.
  split; [reflexivity|].
  unfold prepare_correlation_data; cbv zeta.
  unfold merge_inner; cbn [records].
  rewrite !select_location_comm.
  set (L := value_rows (rename_and_select
              (getitem_mask df (series_eq (column parameter df) param1)) param1)).
  set (R := value_rows (rename_and_select
              (getitem_mask df (series_eq (column parameter df) param2)) param2)).
  set (q := fun a : Datetime * Label * Float64 =>
              pair_at_locations locations
                (mkPairRow (fst (fst a)) (snd (fst a)) PrimFloat.nan PrimFloat.nan)).
  assert (Hq : forall (a b : Datetime * Label * Float64) v w,
             fst a = fst b ->
             pair_at_locations locations
               (mkPairRow (fst (fst a)) (snd (fst a)) v w) = q b).
  { intros a b v w Hab; unfold q; rewrite <- Hab.
    destruct locations as [[|x xs]|]; reflexivity. }
  induction L as [|a L IH]; simpl; [reflexivity|].
  rewrite filter_app, <- IH.
  assert (Hhead : filter (pair_at_locations locations)
                    (map (fun b => mkPairRow (fst (fst a)) (snd (fst a))
                                             (snd a) (snd b))
                         (filter (join_key_eqb a) R))
                  = if q a
                    then map (fun b => mkPairRow (fst (fst a)) (snd (fst a))
                                                 (snd a) (snd b))
                             (filter (join_key_eqb a) (filter q R))
                    else []).
  { rewrite filter_map_test.
    rewrite (filter_ext _ (fun _ => q a))
      by (intros b; apply (Hq a a); reflexivity).
    destruct (q a) eqn:Hqa.
    - rewrite (forallb_filter_id (fun _ => true) (filter (join_key_eqb a) R))
        by (apply forallb_forall; reflexivity).
      f_equal.
      rewrite filter_filter_and.
      apply filter_ext_in; intros b _.
      destruct (join_key_eqb a b) eqn:Hj; [|rewrite andb_false_r; reflexivity].
      apply join_key_eqb_eq in Hj.
      rewrite <- (Hq a b PrimFloat.nan PrimFloat.nan Hj),
        (Hq a a PrimFloat.nan PrimFloat.nan eq_refl), Hqa.
      reflexivity.
    - rewrite filter_none by reflexivity; reflexivity. }
  rewrite Hhead.
  destruct (q a); reflexivity.
Qed.

(* ------------------------------------------------------------------ *)
(** ** The further properties on the fixtures *)

(** A start bound that reads as [NaT]: no row, no error. *)
Lemma date_range_NaT_start :
  filter_data_by_date_range iso_jan_2024 january_rows
    (PyStr "NaT") (PyStr "2024-01-02") = Ok [] /\
  to_datetime iso_jan_2024 (PyStr "NaT") = Ok NaT.
Proof.
  split; [|reflexivity].
  destruct (date_range_never_returns_undated iso_jan_2024 january_rows []
              (PyStr "NaT") (PyStr "2024-01-02") eq_refl) as [_ H].
  exact (f_equal Ok (eq_sym (H (or_introl eq_refl)))).
Defined.

(** A, B and B, A, A select the same rows. *)
Lemma selections_A_B :
  filter_data_by_location january_rows (Some ["A"; "B"]%string)
  = filter_data_by_location january_rows (Some ["B"; "A"; "A"]%string) /\
  filter_data_by_parameter january_rows (ManyParams ["A"; "B"]%string)
  = filter_data_by_parameter january_rows (ManyParams ["B"; "A"; "A"]%string).
Proof.
  apply (selections_act_as_sets january_rows); intros s; simpl; tauto.
Defined.

(** The second row has the date yesterday: the load raises for it. *)
Lemma load_csv_bad_date :
  load_and_process_data iso_jan_2024 csv_bad_date
  = Raise (ParserError "yesterday").
Proof.
  apply load_raises_on_first_unparsed_date.
  - intros c s [<-|[]] H; injection H as <-; discriminate.
  - reflexivity.
  - reflexivity.
Defined.

(** A row without date is loaded with the date [NaT]. *)
Lemma load_csv_undated_row :
  exists df,
    load_and_process_data iso_jan_2024 [csv_undated_row] = Ok df /\
    In (mkRow NaT (Some "A"%string) (Some "PM2.5"%string)
              (Number 10) (Number 1) (Number 2)) df.
Proof.
  eexists; split; [reflexivity|].
  exact (load_keeps_row_without_date iso_jan_2024 [csv_undated_row] _
           csv_undated_row eq_refl (or_introl eq_refl) eq_refl eq_refl).
Defined.

(** The cells of the three rows loaded from the csv fixture. *)
Lemma load_csv_fixture_cells :
  exists df,
    load_and_process_data iso_jan_2024 csv_fixture = Ok df /\
    map (fun r => (location r, parameter r, value r, lat r, lon r)) df
    = [ (Some "A", Some "PM2.5", Number 10, Number 1, Number 2);
        (Some "B", Some "PM2.5", Text "abc", Number 1, Number 2);
        (None, Some "PM2.5", Number 7, Number 1, Number 2) ]%string.
Proof.
  eexists; split; [reflexivity|].
  exact (load_keeps_cells_and_order iso_jan_2024 csv_fixture _ eq_refl).
Defined.

(** The time series of the January rows between 2024-01-01 and 2024-01-02. *)
Lemma time_series_january_range :
  filter_data_by_date_range iso_jan_2024 january_rows
    (PyStr "2024-01-01") (PyStr "2024-01-02")
  = Ok [ pm25_row (jan 1) "A" 10; pm25_row (jan 2 + hours 15) "A" 20 ] /\
  aggregate_data_for_time_series
    [ pm25_row (jan 1) "A" 10; pm25_row (jan 2 + hours 15) "A" 20 ] "PM2.5" "D"
  = filter (series_in_date_range (Stamp (jan 1)) (Stamp (jan 2)))
           (aggregate_data_for_time_series january_rows "PM2.5" "D").
Proof.
  split; [reflexivity|].
  exact (time_series_after_date_range iso_jan_2024 january_rows _
           (PyStr "2024-01-01") (PyStr "2024-01-02")
           (Stamp (jan 1)) (Stamp (jan 2)) "PM2.5" "D"
           eq_refl eq_refl eq_refl).
Defined.

(** The text yesterday is not a date of the fixture's parser: as start
    bound, and as end bound after a start that converts, it raises. *)
Lemma date_range_unparsed_text :
  iso_jan_2024 "yesterday" = None /\
  filter_data_by_date_range iso_jan_2024 january_rows
    (PyStr "yesterday") (PyStr "2024-01-02")
  = Raise (ParserError "yesterday") /\
  filter_data_by_date_range iso_jan_2024 january_rows
    (PyStr "2024-01-01") (PyStr "yesterday")
  = Raise (ParserError "yesterday").
Proof.
  split; [reflexivity|].
  destruct (date_range_raises_on_unparsed_bound iso_jan_2024 january_rows)
    as [Hstart Hend].
  split.
  - exact (proj1 (Hstart "yesterday"%string (PyStr "2024-01-02") eq_refl)).
  - exact (proj1 (Hend (PyStr "2024-01-01") (Stamp (jan 1)) "yesterday"%string
                       eq_refl eq_refl)).
Defined.

(** Location A of the fixture: min 10 and max 20 are its measurements. *)
Lemma comparison_fixture_A :
  In comparison_row_A (aggregate_data_for_comparison series_fixture "PM2.5") /\
  In (float_of_Z 10) (present (values_at "PM2.5" "A" series_fixture)) /\
  In (float_of_Z 20) (present (values_at "PM2.5" "A" series_fixture)).
Proof.
  split; [left; reflexivity|].
  assert (Hne : present (values_at "PM2.5" "A" series_fixture) <> [])
    by (vm_compute; discriminate).
  destruct (comparison_statistics series_fixture "PM2.5" "A" comparison_row_A
              (or_introl eq_refl) eq_refl) as (_ & _ & H).
  destruct (H Hne) as (Hmin & Hmax & _).
  split; [exact Hmin | exact Hmax].
Defined.


Lemma january_two_parameters_distinct :
  NoDup (map measurement_id january_two_parameters).
Proof.
  repeat constructor; simpl; intuition discriminate.
Defined.

(** One measurement per parameter, date and location: one row per pair. *)
Lemma correlation_january_one_row_per_pair :
  NoDup (map pair_key
           (records (prepare_correlation_data january_two_parameters
                       "PM2.5" "NO2"))).
Proof.
  exact (correlation_one_row_per_pair january_two_parameters "PM2.5" "NO2"
           january_two_parameters_distinct).
Defined.
